(** * ComfyUI mesh agent: a shallow embedding of
      [src/integrations/comfyui_integration.py]

    The Python class [ComfyUIMeshAgent] registers a node with the agent
    mesh, polls it for messages, turns inference requests into ComfyUI job
    graphs, submits them and sends the result back to the requester.

    The embedding keeps the shape of the source:
    - Python values that flow through the agent are JSON-like ([pyval]);
    - every method is a computation in a state-and-exception monad [M]:
      the state holds the fields of [self] and the chronological trace of
      observable effects (HTTP requests, printed lines, sleeps); a raised
      exception keeps the state reached so far, as in Python;
    - the outside world (the [requests] library and the servers behind it,
      [json.loads], [json.dumps], [str]) is a parameter of the
      development. *)

From Stdlib Require Import ZArith List String Ascii Bool Lia.
From Stdlib Require Import DecimalString.
From Stdlib Require Import Floats.SpecFloat.
Import ListNotations.
Local Open Scope string_scope.
Local Open Scope Z_scope.

(** ** Python values *)

Set Warnings "-register-all".

(** The values the agent handles all come from JSON documents or from
    dict/list literals of the source.  A dict is an association list in
    insertion order. *)
Inductive pyval : Type :=
| PyNone
| PyBool (b : bool)
| PyInt (z : Z)
| PyFloat (f : spec_float)
| PyStr (s : string)
| PyList (l : list pyval)
| PyDict (d : list (string * pyval)).

(** An exception of class [Exception]: its class name and [str(e)]. *)
Record exn : Type := Exn { exn_class : string; exn_msg : string }.

(** Outcome of an expression that may raise. *)
Definition result (A : Type) : Type := (exn + A)%type.

Definition ok {A} (a : A) : result A := inr a.
Definition throw {A} (e : exn) : result A := inl e.

(** Sequencing of expressions that may raise: the first exception wins. *)
Notation "'let?' x ':=' r 'in' k" :=
  (match r with inl e => inl e | inr x => k end)
  (at level 10, x name, r at level 100, k at level 200).

(** [type(v).__name__] *)
Definition type_name (v : pyval) : string :=
  match v with
  | PyNone => "NoneType"
  | PyBool _ => "bool"
  | PyInt _ => "int"
  | PyFloat _ => "float"
  | PyStr _ => "str"
  | PyList _ => "list"
  | PyDict _ => "dict"
  end.

(** [bool(v)] *)
Definition truthy (v : pyval) : bool :=
  match v with
  | PyNone => false
  | PyBool b => b
  | PyInt z => negb (z =? 0)
  | PyFloat (S754_zero _) => false
  | PyFloat _ => true
  | PyStr s => negb (String.eqb s "")
  | PyList l => match l with [] => false | _ => true end
  | PyDict d => match d with [] => false | _ => true end
  end.

(** [v == s] for a string literal [s]. *)
Definition eq_str (v : pyval) (s : string) : bool :=
  match v with
  | PyStr t => String.eqb t s
  | _ => false
  end.

(** Lookup in a dict body: the first binding of the key. *)
Fixpoint assoc (k : string) (d : list (string * pyval)) : option pyval :=
  match d with
  | [] => None
  | (k', v) :: d' => if String.eqb k k' then Some v else assoc k d'
  end.

Definition AttributeError (v : pyval) (attr : string) : exn :=
  Exn "AttributeError"
      ("'" ++ type_name v ++ "' object has no attribute '" ++ attr ++ "'").

Definition TypeError (msg : string) : exn := Exn "TypeError" msg.

(** [d.get(k, default)] on a dict body. *)
Definition dict_get (d : list (string * pyval)) (k : string)
    (default : pyval) : pyval :=
  match assoc k d with
  | Some x => x
  | None => default
  end.

(** [v.get(k, default)]: only a dict has the method. *)
Definition py_get (v : pyval) (k : string) (default : pyval) : result pyval :=
  match v with
  | PyDict d => ok (dict_get d k default)
  | _ => throw (AttributeError v "get")
  end.

Fixpoint chars (s : string) : list pyval :=
  match s with
  | EmptyString => []
  | String c s' => PyStr (String c EmptyString) :: chars s'
  end.

(** The items a [for] loop draws from [v]. *)
Definition py_iter (v : pyval) : result (list pyval) :=
  match v with
  | PyList l => ok l
  | PyDict d => ok (map (fun kv => PyStr (fst kv)) d)
  | PyStr s => ok (chars s)
  | _ => throw (TypeError ("'" ++ type_name v ++ "' object is not iterable"))
  end.

(** [str(n)] for an int. *)
Definition str_of_int (z : Z) : string := NilZero.string_of_int (Z.to_int z).

(** ** The outside world *)

(** Library functions of the Python runtime used by the agent. *)
Record runtime : Type := Runtime {
  loads : string -> result pyval;   (* json.loads on a str *)
  dumps : pyval -> string;          (* json.dumps *)
  str : pyval -> string             (* str(v), as used by f-strings *)
}.

Inductive http_method : Type := GET | POST.

(** A call of [requests.get] or [requests.post]. *)
Record request : Type := Request {
  req_method : http_method;
  req_url : string;
  req_headers : list (string * string);
  req_json : option pyval;
  req_timeout : Z
}.

(** What the agent reads of a [requests.Response]. *)
Record response : Type := Response {
  status_code : Z;
  body_json : result pyval          (* outcome of resp.json() *)
}.

(** Observable effects, in the order they happen. *)
Inductive event : Type :=
| Print (line : string)
| Http (r : request)
| Sleep (seconds : Z).

(** The network answers a request given everything observed so far; an
    answer is a response or an exception (connection error, timeout,
    unserialisable payload). *)
Definition network : Type := list event -> request -> result response.

(** ** The agent's state *)

(** Agent Mesh settings *)
Definition MESH_API_URL : string := "http://localhost:4000".
Definition MESH_API_KEY : string := "openclaw-mesh-default-key".

(** ComfyUI settings *)
Definition COMFYUI_URL : string := "http://localhost:8188".
Definition COMFYUI_DISTRIBUTED_URL : string := COMFYUI_URL ++ "/distributed".

(** This agent's identity *)
Definition AGENT_NAME : string := "ComfyUI-Mesh-Agent".

Record agent : Type := Agent {
  mesh_url : string;
  mesh_key : string;
  comfyui_url : string;
  comfyui_distributed_url : string;
  agent_name : string;
  mesh_agent_id : pyval;
  running : bool
}.

(** [ComfyUIMeshAgent.__init__]; [agent_name or AGENT_NAME]. *)
Definition init (name : option string) : agent :=
  {| mesh_url := MESH_API_URL;
     mesh_key := MESH_API_KEY;
     comfyui_url := COMFYUI_URL;
     comfyui_distributed_url := COMFYUI_DISTRIBUTED_URL;
     agent_name := match name with
                   | Some n => if String.eqb n "" then AGENT_NAME else n
                   | None => AGENT_NAME
                   end;
     mesh_agent_id := PyNone;
     running := false |}.

Definition with_mesh_agent_id (id : pyval) (a : agent) : agent :=
  {| mesh_url := mesh_url a;
     mesh_key := mesh_key a;
     comfyui_url := comfyui_url a;
     comfyui_distributed_url := comfyui_distributed_url a;
     agent_name := agent_name a;
     mesh_agent_id := id;
     running := running a |}.

Definition with_running (b : bool) (a : agent) : agent :=
  {| mesh_url := mesh_url a;
     mesh_key := mesh_key a;
     comfyui_url := comfyui_url a;
     comfyui_distributed_url := comfyui_distributed_url a;
     agent_name := agent_name a;
     mesh_agent_id := mesh_agent_id a;
     running := b |}.

Record state : Type := State { self : agent; trace : list event }.

(** ** The monad of methods *)

Definition M (A : Type) : Type := state -> result A * state.

Definition ret {A} (a : A) : M A := fun st => (ok a, st).

Definition bind {A B} (m : M A) (k : A -> M B) : M B :=
  fun st =>
    match m st with
    | (inr a, st') => k a st'
    | (inl e, st') => (inl e, st')
    end.

(** [try: m  except Exception as e: h e] *)
Definition try_except {A} (m : M A) (h : exn -> M A) : M A :=
  fun st =>
    match m st with
    | (inr a, st') => (inr a, st')
    | (inl e, st') => h e st'
    end.

Definition lift {A} (r : result A) : M A := fun st => (r, st).

Definition get_self : M agent := fun st => (ok (self st), st).

Definition set_self (f : agent -> agent) : M unit :=
  fun st => (ok tt, {| self := f (self st); trace := trace st |}).

Definition emit (e : event) : M unit :=
  fun st => (ok tt, {| self := self st; trace := trace st ++ [e] |}).

Declare Scope py_scope.
Delimit Scope py_scope with py.
Notation "x <- m ;; k" := (bind m (fun x => k))
  (at level 61, m at next level, right associativity) : py_scope.
Notation "m ;; k" := (bind m (fun _ => k))
  (at level 61, right associativity) : py_scope.
Local Open Scope py_scope.

Definition print (line : string) : M unit := emit (Print line).

Definition sleep (seconds : Z) : M unit := emit (Sleep seconds).

(** ** The methods of [ComfyUIMeshAgent] *)

Section Methods.

Variable rt : runtime.
Variable net : network.

(** [requests.post(url, headers=..., json=..., timeout=...)]: the request
    is observed, then the network answers. *)
Definition http (r : request) : M response :=
  fun st =>
    (net (trace st) r, {| self := self st; trace := trace st ++ [Http r] |}).

Definition requests_post (url : string) (headers : list (string * string))
    (payload : pyval) (timeout : Z) : M response :=
  http {| req_method := POST; req_url := url; req_headers := headers;
          req_json := Some payload; req_timeout := timeout |}.

Definition requests_get (url : string) (headers : list (string * string))
    (timeout : Z) : M response :=
  http {| req_method := GET; req_url := url; req_headers := headers;
          req_json := None; req_timeout := timeout |}.

(** [json.loads(v)]: a value that is not a str is a TypeError. *)
Definition json_loads (v : pyval) : result pyval :=
  match v with
  | PyStr s => loads rt s
  | _ => throw (TypeError
           ("the JSON object must be str, bytes or bytearray, not "
            ++ type_name v))
  end.

Definition mesh_headers (a : agent) : list (string * string) :=
  [("X-API-Key", mesh_key a); ("Content-Type", "application/json")].

(** Register this agent with the Agent Mesh. *)
Definition register_with_mesh : M bool :=
  a <- get_self ;;
  print ("Registering " ++ agent_name a ++ " with Agent Mesh...") ;;
  let payload := PyDict [
    ("name", PyStr (agent_name a));
    ("endpoint", PyStr "http://localhost:18789");
    ("capabilities", PyList [
       PyStr "comfyui_inference";
       PyStr "image_generation";
       PyStr "video_generation";
       PyStr "distributed_inference"])] in
  try_except
    (resp <- requests_post (mesh_url a ++ "/api/agents/register")
               (mesh_headers a) payload 10 ;;
     if status_code resp =? 200 then
       data <- lift (body_json resp) ;;
       id <- lift (py_get data "agentId" PyNone) ;;
       set_self (with_mesh_agent_id id) ;;
       print ("Registered with mesh! Agent ID: " ++ str rt id) ;;
       ret true
     else
       print ("Registration failed: " ++ str_of_int (status_code resp)) ;;
       ret false)
    (fun e =>
       print ("Error registering with mesh: " ++ exn_msg e) ;;
       ret false).

(** Broadcast that ComfyUI is available for inference. *)
Definition broadcast_availability : M unit :=
  a <- get_self ;;
  let payload := PyDict [
    ("content", PyStr (dumps rt (PyDict [
       ("type", PyStr "service_announcement");
       ("service", PyStr "comfyui_distributed");
       ("capabilities", PyList [
          PyStr "image_generation";
          PyStr "video_generation";
          PyStr "distributed_inference";
          PyStr "multi_gpu_processing"]);
       ("endpoint", PyStr (comfyui_distributed_url a));
       ("api_endpoint", PyStr (comfyui_url a ++ "/api"));
       ("distributed_endpoint", PyStr (comfyui_distributed_url a));
       ("status", PyStr "available");
       ("gpu", PyStr "NVIDIA GeForce RTX 5060 Ti (16GB)")])));
    ("sender", PyStr (agent_name a));
    ("priority", PyStr "normal")] in
  try_except
    (resp <- requests_post (mesh_url a ++ "/api/broadcast")
               (mesh_headers a) payload 10 ;;
     if status_code resp =? 200 then
       print "Broadcast availability to mesh"
     else
       print ("Broadcast failed: " ++ str_of_int (status_code resp)))
    (fun e => print ("Broadcast error: " ++ exn_msg e)).

(** Check for messages from other agents. *)
Definition check_mesh_messages : M pyval :=
  a <- get_self ;;
  if negb (truthy (mesh_agent_id a)) then ret (PyList [])
  else
    try_except
      (resp <- requests_get
                 (mesh_url a ++ "/api/messages/" ++ str rt (mesh_agent_id a))
                 [("X-API-Key", mesh_key a)] 5 ;;
       if status_code resp =? 200 then
         data <- lift (body_json resp) ;;
         lift (py_get data "messages" (PyList []))
       else ret (PyList []))
      (fun _ => ret (PyList [])).

(** The job graph of [generate_image]: the dict literal [workflow],
    evaluated entry by entry in source order. *)
Definition generate_image_workflow (prompt options : pyval) : result pyval :=
  let? positive := py_get prompt "positive" (PyStr "") in
  let? negative := py_get prompt "negative" (PyStr "bad quality") in
  let? seed := py_get options "seed" (PyInt 42) in
  let? steps := py_get options "steps" (PyInt 20) in
  let? cfg := py_get options "cfg" (PyInt 8) in
  let? sampler := py_get options "sampler" (PyStr "euler") in
  let? model := py_get options "model" (PyStr "sd_xl_base_1.0.safetensors") in
  let? width := py_get options "width" (PyInt 1024) in
  let? height := py_get options "height" (PyInt 1024) in
  let? filename := py_get options "filename" (PyStr "mesh_generated") in
  ok (PyDict [
    ("3", PyDict [("class_type", PyStr "CLIPTextEncode");
                  ("inputs", PyDict [("text", positive);
                                     ("clip", PyList [PyStr "4"; PyInt 0])])]);
    ("4", PyDict [("class_type", PyStr "CLIPTextEncode");
                  ("inputs", PyDict [("text", negative);
                                     ("clip", PyList [PyStr "4"; PyInt 0])])]);
    ("5", PyDict [("class_type", PyStr "KSampler");
                  ("inputs", PyDict [("seed", seed);
                                     ("steps", steps);
                                     ("cfg", cfg);
                                     ("sampler_name", sampler);
                                     ("scheduler", PyStr "normal");
                                     ("model", PyList [PyStr "6"; PyInt 0]);
                                     ("positive", PyList [PyStr "3"; PyInt 0]);
                                     ("negative", PyList [PyStr "4"; PyInt 0]);
                                     ("latent_image", PyList [PyStr "7"; PyInt 0])])]);
    ("6", PyDict [("class_type", PyStr "CheckpointLoaderSimple");
                  ("inputs", PyDict [("ckpt_name", model)])]);
    ("7", PyDict [("class_type", PyStr "EmptyLatentImage");
                  ("inputs", PyDict [("width", width);
                                     ("height", height);
                                     ("batch_size", PyInt 1)])]);
    ("8", PyDict [("class_type", PyStr "VAEDecode");
                  ("inputs", PyDict [("samples", PyList [PyStr "5"; PyInt 0]);
                                     ("vae", PyList [PyStr "6"; PyInt 0])])]);
    ("9", PyDict [("class_type", PyStr "SaveImage");
                  ("inputs", PyDict [("images", PyList [PyStr "8"; PyInt 0]);
                                     ("filename_prefix", filename)])])]).

(** Generate an image via ComfyUI. *)
Definition generate_image (prompt options : pyval) : M pyval :=
  a <- get_self ;;
  try_except
    (workflow <- lift (generate_image_workflow prompt options) ;;
     resp <- requests_post (comfyui_url a ++ "/api/prompt") []
               (PyDict [("prompt", workflow);
                        ("client_id", PyStr "mesh-agent")]) 10 ;;
     if status_code resp =? 200 then
       data <- lift (body_json resp) ;;
       prompt_id <- lift (py_get data "prompt_id" PyNone) ;;
       ret (PyDict [("status", PyStr "queued"); ("prompt_id", prompt_id)])
     else
       ret (PyDict [("error", PyStr ("ComfyUI error: "
                                     ++ str_of_int (status_code resp)))]))
    (fun e => ret (PyDict [("error", PyStr (exn_msg e))])).

(** The job graph of [generate_video] (WAN2.2). *)
Definition generate_video_workflow (prompt options : pyval) : result pyval :=
  let? text := py_get prompt "prompt" (PyStr "") in
  let? width := py_get options "width" (PyInt 1280) in
  let? height := py_get options "height" (PyInt 704) in
  let? frames := py_get options "frames" (PyInt 125) in
  let? seed := py_get options "seed" (PyInt 77777) in
  let? filename := py_get options "filename" (PyStr "mesh_video") in
  ok (PyDict [
    ("unet", PyDict [("class_type", PyStr "UNETLoader");
                     ("inputs", PyDict [("unet_name", PyStr "wan2.2_ti2v_5B_fp16.safetensors")])]);
    ("clip", PyDict [("class_type", PyStr "CLIPLoader");
                     ("inputs", PyDict [("clip_name", PyStr "umt5_xxl_fp8_e4m3fn_scaled.safetensors");
                                        ("type", PyStr "wan")])]);
    ("vae", PyDict [("class_type", PyStr "VAELoader");
                    ("inputs", PyDict [("vae_name", PyStr "wan2.2_vae.safetensors")])]);
    ("pos", PyDict [("class_type", PyStr "CLIPTextEncode");
                    ("inputs", PyDict [("clip", PyList [PyStr "clip"; PyInt 0]);
                                       ("text", text)])]);
    ("neg", PyDict [("class_type", PyStr "CLIPTextEncode");
                    ("inputs", PyDict [("clip", PyList [PyStr "clip"; PyInt 0]);
                                       ("text", PyStr "blurry, distorted, cartoon")])]);
    ("model_shift", PyDict [("class_type", PyStr "ModelSamplingSD3");
                            ("inputs", PyDict [("model", PyList [PyStr "unet"; PyInt 0]);
                                               ("shift", PyInt 8)])]);
    ("i2v", PyDict [("class_type", PyStr "Wan22ImageToVideoLatent");
                    ("inputs", PyDict [("vae", PyList [PyStr "vae"; PyInt 0]);
                                       ("width", width);
                                       ("height", height);
                                       ("length", frames);
                                       ("batch_size", PyInt 1)])]);
    ("samp", PyDict [("class_type", PyStr "KSampler");
                     ("inputs", PyDict [("seed", seed);
                                        ("steps", PyInt 20);
                                        ("cfg", PyInt 5);
                                        ("sampler_name", PyStr "uni_pc");
                                        ("model", PyList [PyStr "model_shift"; PyInt 0]);
                                        ("positive", PyList [PyStr "pos"; PyInt 0]);
                                        ("negative", PyList [PyStr "neg"; PyInt 0]);
                                        ("latent_image", PyList [PyStr "i2v"; PyInt 0])])]);
    ("decode", PyDict [("class_type", PyStr "VAEDecode");
                       ("inputs", PyDict [("samples", PyList [PyStr "samp"; PyInt 0]);
                                          ("vae", PyList [PyStr "vae"; PyInt 0])])]);
    ("create_video", PyDict [("class_type", PyStr "CreateVideo");
                             ("inputs", PyDict [("images", PyList [PyStr "decode"; PyInt 0]);
                                                ("fps", PyInt 24)])]);
    ("save", PyDict [("class_type", PyStr "SaveVideo");
                     ("inputs", PyDict [("video", PyList [PyStr "create_video"; PyInt 0]);
                                        ("filename_prefix", filename);
                                        ("format", PyStr "mp4")])])]).

(** Generate a video via ComfyUI (WAN2.2). *)
Definition generate_video (prompt options : pyval) : M pyval :=
  a <- get_self ;;
  try_except
    (workflow <- lift (generate_video_workflow prompt options) ;;
     resp <- requests_post (comfyui_url a ++ "/api/prompt") []
               (PyDict [("prompt", workflow);
                        ("client_id", PyStr "mesh-agent-video")]) 10 ;;
     if status_code resp =? 200 then
       data <- lift (body_json resp) ;;
       prompt_id <- lift (py_get data "prompt_id" PyNone) ;;
       ret (PyDict [("status", PyStr "queued"); ("prompt_id", prompt_id)])
     else
       ret (PyDict [("error", PyStr ("ComfyUI error: "
                                     ++ str_of_int (status_code resp)))]))
    (fun e => ret (PyDict [("error", PyStr (exn_msg e))])).

(** The body posted by [queue_distributed_workflow]. *)
Definition distributed_payload (workflow options : pyval) : result pyval :=
  let? delegate_master := py_get options "delegate_master" (PyBool false) in
  let? worker_ids := py_get options "worker_ids" (PyList []) in
  ok (PyDict [("prompt", workflow);
              ("client_id", PyStr "mesh-distributed");
              ("delegate_master", delegate_master);
              ("enabled_worker_ids", worker_ids)]).

(** Queue a distributed workflow via ComfyUI-Distributed API. *)
Definition queue_distributed_workflow (workflow options : pyval) : M pyval :=
  a <- get_self ;;
  try_except
    (payload <- lift (distributed_payload workflow options) ;;
     resp <- requests_post (comfyui_distributed_url a ++ "/queue") []
               payload 10 ;;
     if status_code resp =? 200 then
       data <- lift (body_json resp) ;;
       prompt_id <- lift (py_get data "prompt_id" PyNone) ;;
       worker_count <- lift (py_get data "worker_count" (PyInt 1)) ;;
       ret (PyDict [("status", PyStr "distributed_queued");
                    ("prompt_id", prompt_id);
                    ("worker_count", worker_count)])
     else
       ret (PyDict [("error", PyStr ("Distributed API error: "
                                     ++ str_of_int (status_code resp)))]))
    (fun e => ret (PyDict [("error", PyStr (exn_msg e))])).

(** Process an inference request from another agent.  [PyNone] is the
    [None] of the [Optional] return type. *)
Definition process_inference_request (message : pyval) : M pyval :=
  try_except
    (raw <- lift (py_get message "content" (PyStr "{}")) ;;
     content <- lift (json_loads raw) ;;
     type <- lift (py_get content "type" PyNone) ;;
     if negb (eq_str type "inference_request") then ret PyNone
     else
       request_type <- lift (py_get content "request_type" PyNone) ;;
       prompt <- lift (py_get content "prompt" PyNone) ;;
       options <- lift (py_get content "options" (PyDict [])) ;;
       sender <- lift (py_get message "sender" PyNone) ;;
       print ("Received " ++ str rt request_type ++ " request from "
              ++ str rt sender) ;;
       if eq_str request_type "image_generation" then
         generate_image prompt options
       else if eq_str request_type "video_generation" then
         generate_video prompt options
       else if eq_str request_type "distributed_inference" then
         queue_distributed_workflow prompt options
       else
         ret (PyDict [("error", PyStr ("Unknown request type: "
                                       ++ str rt request_type))]))
    (fun e => ret (PyDict [("error", PyStr (exn_msg e))])).

(** Send response back to the requesting agent.  The payload is built
    before the [try]: an exception raised while building it leaves
    [send_response]. *)
Definition send_response (original_message response : pyval) : M unit :=
  a <- get_self ;;
  raw <- lift (py_get original_message "content" (PyStr "{}")) ;;
  original_request <- lift (json_loads raw) ;;
  recipient <- lift (py_get original_message "sender" PyNone) ;;
  let payload := PyDict [
    ("content", PyStr (dumps rt (PyDict [
       ("type", PyStr "inference_response");
       ("original_request", original_request);
       ("response", response)])));
    ("sender", PyStr (agent_name a));
    ("recipient", recipient);
    ("priority", PyStr "normal")] in
  try_except
    (requests_post (mesh_url a ++ "/api/messages/send")
       (mesh_headers a) payload 10 ;;
     sender <- lift (py_get original_message "sender" PyNone) ;;
     print ("Sent response to " ++ str rt sender))
    (fun e => print ("Failed to send response: " ++ exn_msg e)).

(** The body of the [for] loop of [listen_for_requests]. *)
Definition handle_message (msg : pyval) : M unit :=
  response <- process_inference_request msg ;;
  if truthy response then send_response msg response else ret tt.

(** [for msg in items: body msg]: an exception leaves the loop. *)
Fixpoint for_each (body : pyval -> M unit) (items : list pyval) : M unit :=
  match items with
  | [] => ret tt
  | msg :: rest => body msg ;; for_each body rest
  end.

(** One iteration of the [while] loop of [listen_for_requests]. *)
Definition listen_cycle : M unit :=
  try_except
    (messages <- check_mesh_messages ;;
     items <- lift (py_iter messages) ;;
     for_each handle_message items ;;
     sleep 10)
    (fun e =>
       print ("Error in listen loop: " ++ exn_msg e) ;;
       sleep 30).

(** [while self.running: ...], observed for at most [cycles] iterations.
    Nothing in the loop clears [running]: only [stop], called from
    outside, does. *)
Fixpoint listen_loop (cycles : nat) : M unit :=
  match cycles with
  | O => ret tt
  | S n =>
      a <- get_self ;;
      if running a then listen_cycle ;; listen_loop n else ret tt
  end.

(** Listen for inference requests from mesh agents. *)
Definition listen_for_requests (cycles : nat) : M unit :=
  a <- get_self ;;
  print (agent_name a ++ " listening for mesh requests...") ;;
  set_self (with_running true) ;;
  listen_loop cycles.

(** Start the mesh integration. *)
Definition start (cycles : nat) : M unit :=
  registered <- register_with_mesh ;;
  if registered then
    broadcast_availability ;;
    listen_for_requests cycles
  else ret tt.

(** Stop the mesh integration. *)
Definition stop : M unit :=
  set_self (with_running false) ;;
  a <- get_self ;;
  print (agent_name a ++ " stopped").

End Methods.

(** Run the ComfyUI mesh integration. *)
Definition run_mesh_integration (rt : runtime) (net : network)
    (cycles : nat) : result unit * state :=
  start rt net cycles {| self := init None; trace := [] |}.

(** * Reading the model *)

(** [log st evs]: the state [st] after the effects [evs]. *)
Definition log (st : state) (evs : list event) : state :=
  {| self := self st; trace := trace st ++ evs |}.

(** What a computation adds to the trace of the state it starts in. *)
Definition emitted {A} (m : M A) (st : state) : list event :=
  skipn (List.length (trace st)) (trace (snd (m st))).

(** The HTTP requests among some events, in order. *)
Fixpoint http_requests (evs : list event) : list request :=
  match evs with
  | [] => []
  | Http r :: evs' => r :: http_requests evs'
  | _ :: evs' => http_requests evs'
  end.

(** The job graphs among some requests: the [prompt] entry of each body
    that has one. *)
Fixpoint posted_graphs (rs : list request) : list pyval :=
  match rs with
  | [] => []
  | r :: rs' =>
      match req_json r with
      | Some (PyDict body) =>
          match assoc "prompt" body with
          | Some graph => graph :: posted_graphs rs'
          | None => posted_graphs rs'
          end
      | _ => posted_graphs rs'
      end
  end.

(** The decoded content of a message, as the first line of
    [process_inference_request] and the payload of [send_response]
    compute it. *)
Definition decode (rt : runtime) (message : pyval) : result pyval :=
  let? raw := py_get message "content" (PyStr "{}") in
  json_loads rt raw.

(** The requests the agent issues. *)
Definition register_request (a : agent) : request :=
  {| req_method := POST;
     req_url := mesh_url a ++ "/api/agents/register";
     req_headers := mesh_headers a;
     req_json := Some (PyDict [
       ("name", PyStr (agent_name a));
       ("endpoint", PyStr "http://localhost:18789");
       ("capabilities", PyList [
          PyStr "comfyui_inference";
          PyStr "image_generation";
          PyStr "video_generation";
          PyStr "distributed_inference"])]);
     req_timeout := 10 |}.

Definition poll_request (rt : runtime) (a : agent) : request :=
  {| req_method := GET;
     req_url := mesh_url a ++ "/api/messages/" ++ str rt (mesh_agent_id a);
     req_headers := [("X-API-Key", mesh_key a)];
     req_json := None;
     req_timeout := 5 |}.

(** Submission of a job graph to the backend's job endpoint. *)
Definition prompt_request (a : agent) (workflow : pyval)
    (client_id : string) : request :=
  {| req_method := POST;
     req_url := comfyui_url a ++ "/api/prompt";
     req_headers := [];
     req_json := Some (PyDict [("prompt", workflow);
                               ("client_id", PyStr client_id)]);
     req_timeout := 10 |}.

(** Submission to the distributed extension's queue endpoint. *)
Definition distributed_request (a : agent) (payload : pyval) : request :=
  {| req_method := POST;
     req_url := comfyui_distributed_url a ++ "/queue";
     req_headers := [];
     req_json := Some payload;
     req_timeout := 10 |}.

(** The response message: the original request and the result, addressed
    to the sender of the original message. *)
Definition send_request (rt : runtime) (a : agent)
    (original_request response recipient : pyval) : request :=
  {| req_method := POST;
     req_url := mesh_url a ++ "/api/messages/send";
     req_headers := mesh_headers a;
     req_json := Some (PyDict [
       ("content", PyStr (dumps rt (PyDict [
          ("type", PyStr "inference_response");
          ("original_request", original_request);
          ("response", response)])));
       ("sender", PyStr (agent_name a));
       ("recipient", recipient);
       ("priority", PyStr "normal")]);
     req_timeout := 10 |}.

(** The line [send_response] prints after the request [r], made when the
    trace was [tr]. *)
Definition send_log (rt : runtime) (net : network) (tr : list event)
    (r : request) (recipient : pyval) : event :=
  match net tr r with
  | inr _ => Print ("Sent response to " ++ str rt recipient)
  | inl e => Print ("Failed to send response: " ++ exn_msg e)
  end.

(** A response to a peer: a request whose body names a recipient, as
    only the payload of [send_response] does. *)
Definition is_response (r : request) : bool :=
  match req_json r with
  | Some (PyDict body) =>
      match assoc "recipient" body with
      | Some _ => true
      | None => false
      end
  | _ => false
  end.

(** The responses sent to peers among some events. *)
Definition responses_sent (evs : list event) : list request :=
  filter is_response (http_requests evs).

(** [decodes rt message]: the content of the message is JSON. *)
Definition decodes (rt : runtime) (message : pyval) : Prop :=
  exists content, decode rt message = ok content.

(** [answered rt message]: the message is one that the loop answers,
    a request or content that is not a dict (answered with the error that
    processing it raised); a dict of another type is not. *)
Definition answered (rt : runtime) (message : pyval) : bool :=
  match decode rt message with
  | inr (PyDict body) =>
      eq_str (dict_get body "type" PyNone) "inference_request"
  | inr _ => true
  | inl _ => false
  end.

(** The fields of an inference result, read off the dict the code
    returns: a result with an [error] entry and no [status] entry is the
    error result, [prompt_id] is the backend's job handle. *)
Inductive status : Type := queued | distributed_queued | error.

Definition status_of (r : pyval) : option status :=
  match r with
  | PyDict d =>
      match assoc "status" d, assoc "error" d with
      | Some s, None =>
          if eq_str s "queued" then Some queued
          else if eq_str s "distributed_queued" then Some distributed_queued
          else None
      | None, Some _ => Some error
      | _, _ => None
      end
  | _ => None
  end.

Definition job_handle (r : pyval) : option pyval :=
  match r with
  | PyDict d => assoc "prompt_id" d
  | _ => None
  end.

Definition error_detail (r : pyval) : option pyval :=
  match r with
  | PyDict d => assoc "error" d
  | _ => None
  end.

Definition error_result (detail : string) : pyval :=
  PyDict [("error", PyStr detail)].

(** An input of a node of a job graph. *)
Definition node_input (graph : pyval) (node key : string) : option pyval :=
  match graph with
  | PyDict nodes =>
      match assoc node nodes with
      | Some (PyDict fields) =>
          match assoc "inputs" fields with
          | Some (PyDict inputs) => assoc key inputs
          | _ => None
          end
      | _ => None
      end
  | _ => None
  end.

(** A link to output [slot] of node [node], as job graphs write it. *)
Definition link (node : string) (slot : Z) : pyval :=
  PyList [PyStr node; PyInt slot].

(** [links_to v node]: the input value [v] is a link to [node]. *)
Definition links_to (v : pyval) (node : string) : bool :=
  match v with
  | PyList [PyStr n; _] => String.eqb n node
  | _ => false
  end.

(** [refers fields target]: a node with these fields has an input that is
    a link to [target]. *)
Definition refers (fields : pyval) (target : string) : bool :=
  match fields with
  | PyDict f =>
      match assoc "inputs" f with
      | Some (PyDict inputs) =>
          existsb (fun kv => links_to (snd kv) target) inputs
      | _ => false
      end
  | _ => false
  end.

(** The nodes of a graph one of whose inputs is a link to [target]. *)
Definition referrers (graph : pyval) (target : string) : list string :=
  match graph with
  | PyDict nodes =>
      flat_map (fun n => if refers (snd n) target then [fst n] else []) nodes
  | _ => []
  end.

(** Scalars: the values the data model allows in prompt texts and
    options. *)
Definition scalar (v : pyval) : bool :=
  match v with
  | PyList _ | PyDict _ => false
  | _ => true
  end.

Definition scalars (d : list (string * pyval)) : bool :=
  forallb (fun kv => scalar (snd kv)) d.

(** The result [generate_image] and [generate_video] make of the
    backend's answer to the submission. *)
Definition queued_result (answer : result response) : pyval :=
  match answer with
  | inl e => error_result (exn_msg e)
  | inr resp =>
      if status_code resp =? 200 then
        match body_json resp with
        | inl e => error_result (exn_msg e)
        | inr data =>
            match py_get data "prompt_id" PyNone with
            | inl e => error_result (exn_msg e)
            | inr prompt_id =>
                PyDict [("status", PyStr "queued"); ("prompt_id", prompt_id)]
            end
        end
      else error_result ("ComfyUI error: " ++ str_of_int (status_code resp))
  end.

(** The result [queue_distributed_workflow] makes of the answer. *)
Definition distributed_result (answer : result response) : pyval :=
  match answer with
  | inl e => error_result (exn_msg e)
  | inr resp =>
      if status_code resp =? 200 then
        match body_json resp with
        | inl e => error_result (exn_msg e)
        | inr data =>
            match py_get data "prompt_id" PyNone with
            | inl e => error_result (exn_msg e)
            | inr prompt_id =>
                match py_get data "worker_count" (PyInt 1) with
                | inl e => error_result (exn_msg e)
                | inr worker_count =>
                    PyDict [("status", PyStr "distributed_queued");
                            ("prompt_id", prompt_id);
                            ("worker_count", worker_count)]
                end
            end
        end
      else error_result ("Distributed API error: "
                         ++ str_of_int (status_code resp))
  end.

(** The three known request kinds. *)
Definition known_kind (request_type : pyval) : bool :=
  eq_str request_type "image_generation"
  || eq_str request_type "video_generation"
  || eq_str request_type "distributed_inference".

(** The line [process_inference_request] prints for a request. *)
Definition received_log (rt : runtime) (request_type sender : pyval) : event :=
  Print ("Received " ++ str rt request_type ++ " request from "
         ++ str rt sender).

(** [is_request rt message body]: [message] is a dict whose content
    decodes to the dict [body] with the discriminant
    [inference_request]. *)
Definition is_request (rt : runtime) (message : pyval)
    (body : list (string * pyval)) : Prop :=
  decode rt message = ok (PyDict body) /\
  eq_str (dict_get body "type" PyNone) "inference_request" = true.

(** The sender of a message. *)
Definition sender_of (message : pyval) : pyval :=
  match message with
  | PyDict m => dict_get m "sender" PyNone
  | _ => PyNone
  end.

(** The routing of a request by its kind, as the [if] chain of
    [process_inference_request] does it. *)
Definition dispatch (rt : runtime) (net : network)
    (request_type prompt options : pyval) : M pyval :=
  if eq_str request_type "image_generation" then
    generate_image net prompt options
  else if eq_str request_type "video_generation" then
    generate_video net prompt options
  else if eq_str request_type "distributed_inference" then
    queue_distributed_workflow net prompt options
  else
    ret (error_result ("Unknown request type: " ++ str rt request_type)).

(** [effects_only m]: running [m] leaves the fields of the agent as they
    are and only adds to the trace. *)
Definition effects_only {A} (m : M A) : Prop :=
  forall st, exists evs, snd (m st) = log st evs.

(** [returns m]: [m] never raises to its caller. *)
Definition returns {A} (m : M A) : Prop :=
  forall st, exists a st', m st = (ok a, st').

(** The fields of an inference result are consistent: a status among the
    three, a job handle exactly when the status is not [error], an error
    detail exactly when it is. *)
Definition result_invariant (r : pyval) : Prop :=
  exists s, status_of r = Some s /\
            (job_handle r <> None <-> s <> error) /\
            (error_detail r <> None <-> s = error).

(** The answers to the registration request that make it fail: an
    exception of the transport (a timeout among them) or a status other
    than 200. *)
Definition registration_fails (answer : result response) : Prop :=
  match answer with
  | inl _ => True
  | inr resp => status_code resp <> 200
  end.

(** The first line [register_with_mesh] prints. *)
Definition registering_log (a : agent) : event :=
  Print ("Registering " ++ agent_name a ++ " with Agent Mesh...").

(** The class of a node of a job graph. *)
Definition node_class (graph : pyval) (node : string) : option pyval :=
  match graph with
  | PyDict nodes =>
      match assoc node nodes with
      | Some (PyDict fields) => assoc "class_type" fields
      | _ => None
      end
  | _ => None
  end.

(** ** Further readings: registration, announcement, the loop *)

(** The answers to the registration request that make it succeed:
    status 200 and a body that is a JSON object, [data]. *)
Definition registration_accepted (answer : result response)
    (data : list (string * pyval)) : Prop :=
  exists resp,
    answer = ok resp /\ status_code resp = 200 /\
    body_json resp = ok (PyDict data).

(** The line printed after a successful registration. *)
Definition registered_log (rt : runtime) (id : pyval) : event :=
  Print ("Registered with mesh! Agent ID: " ++ str rt id).

(** The announcement [broadcast_availability] posts. *)
Definition broadcast_request (rt : runtime) (a : agent) : request :=
  {| req_method := POST;
     req_url := mesh_url a ++ "/api/broadcast";
     req_headers := mesh_headers a;
     req_json := Some (PyDict [
       ("content", PyStr (dumps rt (PyDict [
          ("type", PyStr "service_announcement");
          ("service", PyStr "comfyui_distributed");
          ("capabilities", PyList [
             PyStr "image_generation";
             PyStr "video_generation";
             PyStr "distributed_inference";
             PyStr "multi_gpu_processing"]);
          ("endpoint", PyStr (comfyui_distributed_url a));
          ("api_endpoint", PyStr (comfyui_url a ++ "/api"));
          ("distributed_endpoint", PyStr (comfyui_distributed_url a));
          ("status", PyStr "available");
          ("gpu", PyStr "NVIDIA GeForce RTX 5060 Ti (16GB)")])));
       ("sender", PyStr (agent_name a));
       ("priority", PyStr "normal")]);
     req_timeout := 10 |}.

(** The line [broadcast_availability] prints for an answer. *)
Definition broadcast_log (answer : result response) : event :=
  match answer with
  | inr resp =>
      if status_code resp =? 200 then Print "Broadcast availability to mesh"
      else Print ("Broadcast failed: " ++ str_of_int (status_code resp))
  | inl e => Print ("Broadcast error: " ++ exn_msg e)
  end.

(** The first line of [listen_for_requests]. *)
Definition listening_log (a : agent) : event :=
  Print (agent_name a ++ " listening for mesh requests...").

(** The sleeps among some events. *)
Fixpoint sleeps (evs : list event) : list Z :=
  match evs with
  | [] => []
  | Sleep n :: evs' => n :: sleeps evs'
  | _ :: evs' => sleeps evs'
  end.


(** The requests an agent configured as [a] may make: each has a timeout
    of 5 or 10 seconds; it goes to the mesh, under the mesh URL and with
    the API key among its headers, or to one of the two endpoints of the
    backend, without any header. *)
Definition request_allowed (a : agent) (r : request) : Prop :=
  (req_timeout r = 5 \/ req_timeout r = 10) /\
  ((String.prefix (mesh_url a) (req_url r) = true /\
    In ("X-API-Key", mesh_key a) (req_headers r)) \/
   (req_headers r = [] /\
    (req_url r = comfyui_url a ++ "/api/prompt" \/
     req_url r = comfyui_distributed_url a ++ "/queue"))).

Definition allowed (a : agent) (e : event) : Prop :=
  match e with
  | Http r => request_allowed a r
  | _ => True
  end.

Definition no_sleep (e : event) : Prop :=
  match e with
  | Sleep _ => False
  | _ => True
  end.

(** [emits_at a P m]: run by the agent [a], [m] leaves the agent as it
    is and adds to the trace only events that satisfy [P]. *)
Definition emits_at {A} (a : agent) (P : event -> Prop) (m : M A) : Prop :=
  forall st, self st = a ->
    exists evs, snd (m st) = log st evs /\ Forall P evs.

(** An event the agent may emit while it handles messages: an allowed
    request or a printed line, no sleep. *)
Definition quiet (a : agent) (e : event) : Prop := allowed a e /\ no_sleep e.

(** The recipient a request names in its body. *)
Definition recipient_of (r : request) : pyval :=
  match req_json r with
  | Some (PyDict body) => dict_get body "recipient" PyNone
  | _ => PyNone
  end.

(** The envelope [send_response] serialises as the content of a
    response. *)
Definition response_envelope (original_request response : pyval) : pyval :=
  PyDict [("type", PyStr "inference_response");
          ("original_request", original_request);
          ("response", response)].

(** A request's body, read as the message a peer would poll. *)
Definition as_message (r : request) : pyval :=
  match req_json r with
  | Some body => body
  | None => PyNone
  end.

(** The announcement [broadcast_availability] serialises as content. *)
Definition announcement (a : agent) : pyval :=
  PyDict [("type", PyStr "service_announcement");
          ("service", PyStr "comfyui_distributed");
          ("capabilities", PyList [
             PyStr "image_generation";
             PyStr "video_generation";
             PyStr "distributed_inference";
             PyStr "multi_gpu_processing"]);
          ("endpoint", PyStr (comfyui_distributed_url a));
          ("api_endpoint", PyStr (comfyui_url a ++ "/api"));
          ("distributed_endpoint", PyStr (comfyui_distributed_url a));
          ("status", PyStr "available");
          ("gpu", PyStr "NVIDIA GeForce RTX 5060 Ti (16GB)")].

(** The argument of a request that its builder cannot use: the first
    value on which it calls [get] that is not a dict (the prompt, then the
    options, for an image or a video; the options for a distributed
    request, whose prompt is passed on as it is). *)
Definition unusable (request_type prompt options : pyval) : option pyval :=
  if eq_str request_type "image_generation"
     || eq_str request_type "video_generation" then
    match prompt, options with
    | PyDict _, PyDict _ => None
    | PyDict _, _ => Some options
    | _, _ => Some prompt
    end
  else if eq_str request_type "distributed_inference" then
    match options with
    | PyDict _ => None
    | _ => Some options
    end
  else None.

(** ** Further readings: job graphs *)

(** The node an input value links to, if it is a link. *)
Definition target_of (v : pyval) : list string :=
  match v with
  | PyList [PyStr n; _] => [n]
  | _ => []
  end.

(** The inputs of a node. *)
Definition inputs_of (fields : pyval) : list (string * pyval) :=
  match fields with
  | PyDict f =>
      match assoc "inputs" f with
      | Some (PyDict inputs) => inputs
      | _ => []
      end
  | _ => []
  end.

(** The nodes a node links to. *)
Definition targets (fields : pyval) : list string :=
  flat_map (fun kv => target_of (snd kv)) (inputs_of fields).

Definition among (ids : list string) (n : string) : bool :=
  existsb (String.eqb n) ids.

(** [closed graph]: every link of the graph points to one of its nodes. *)
Definition closed (graph : pyval) : bool :=
  match graph with
  | PyDict nodes =>
      forallb (fun n => forallb (among (map fst nodes)) (targets (snd n)))
        nodes
  | _ => false
  end.

(** [ordered seen nodes]: every node links only to nodes listed before
    it ([seen] are the ones before [nodes]). *)
Fixpoint ordered (seen : list string) (nodes : list (string * pyval)) : bool :=
  match nodes with
  | [] => true
  | (id, fields) :: rest =>
      forallb (among seen) (targets fields) && ordered (id :: seen) rest
  end.

Definition acyclic (graph : pyval) : bool :=
  match graph with
  | PyDict nodes => ordered [] nodes
  | _ => false
  end.

(** The entries of a dict under some keys. *)
Definition entries (keys : list string) (d : list (string * pyval))
  : list (option pyval) :=
  map (fun k => assoc k d) keys.

(** The options the image builder reads, and those the video builder
    reads. *)
Definition image_options : list string :=
  ["seed"; "steps"; "cfg"; "sampler"; "model"; "width"; "height"; "filename"].

Definition video_options : list string :=
  ["width"; "height"; "frames"; "seed"; "filename"].

(** ** Further readings: the shapes of a result *)

(** The answers of the backend that the submission functions take as
    success: status 200 and a body that is a JSON object, [data]. *)
Definition backend_accepted (answer : result response)
    (data : list (string * pyval)) : Prop :=
  exists resp,
    answer = ok resp /\ status_code resp = 200 /\
    body_json resp = ok (PyDict data).

(** The result of an accepted image or video submission: the handle is
    the [prompt_id] entry of the body, [None] when the body has none. *)
Definition queued_with (data : list (string * pyval)) : pyval :=
  PyDict [("status", PyStr "queued");
          ("prompt_id", dict_get data "prompt_id" PyNone)].

(** The result of an accepted distributed submission. *)
Definition distributed_queued_with (data : list (string * pyval)) : pyval :=
  PyDict [("status", PyStr "distributed_queued");
          ("prompt_id", dict_get data "prompt_id" PyNone);
          ("worker_count", dict_get data "worker_count" (PyInt 1))].

(** [submission_outcome built answer_of success r]: the result [r] of a
    submission whose body is [built], answered by [answer_of], is the
    error dict (an [error] entry and nothing else) or the success dict
    made of the body of an accepted answer; it is the latter whenever the
    body was built and the answer accepted. *)
Definition submission_outcome (built : result pyval)
    (answer_of : pyval -> result response)
    (success : list (string * pyval) -> pyval) (r : pyval) : Prop :=
  ((exists detail, r = error_result detail) \/
   (exists body data,
      built = ok body /\ backend_accepted (answer_of body) data /\
      r = success data)) /\
  (forall body data,
     built = ok body -> backend_accepted (answer_of body) data ->
     r = success data).

(** The [status] entry of a result, and whether it carries a job handle:
    a [prompt_id] entry that is not [None]. *)
Definition status_field (r : pyval) : option pyval :=
  match r with
  | PyDict d => assoc "status" d
  | _ => None
  end.

Definition has_handle (r : pyval) : bool :=
  match job_handle r with
  | Some PyNone | None => false
  | Some _ => true
  end.

(** The invariant of an inference result as the data model words it: a
    status field among [queued], [distributed_queued] and [error], a job
    handle exactly when the status is not [error], an error detail
    exactly when it is. *)
Definition stated_invariant (r : pyval) : Prop :=
  exists s,
    status_field r = Some (PyStr s) /\
    In s ["queued"; "distributed_queued"; "error"] /\
    (has_handle r = true <-> s <> "error") /\
    (error_detail r <> None <-> s = "error").

(** * A concrete world

    The properties below hold for every runtime and every network.  The
    examples run the agent in the following world: [print_json] writes
    JSON texts, [parse_json] reads back the texts of the documents listed
    in [documents] and raises on any other text (the only other text of
    the examples, [not json], is not JSON); the network answers by method
    and URL. *)

Module Demo.

Definition quote (s : string) : string :=
  String "034"%char (s ++ String "034"%char EmptyString).

Fixpoint join (sep : string) (l : list string) : string :=
  match l with
  | [] => ""
  | [x] => x
  | x :: l' => x ++ sep ++ join sep l'
  end.

(** [json.dumps] on values without floats and without characters that
    need escaping. *)
Fixpoint print_json (v : pyval) : string :=
  match v with
  | PyNone => "null"
  | PyBool b => if b then "true" else "false"
  | PyInt z => str_of_int z
  | PyFloat _ => "NaN"
  | PyStr s => quote s
  | PyList l => "[" ++ join ", " (map print_json l) ++ "]"
  | PyDict d =>
      "{" ++ join ", " (map (fun kv => match kv with
                                       | (k, x) => quote k ++ ": " ++ print_json x
                                       end) d) ++ "}"
  end.

(** [repr(v)], on the same values. *)
Fixpoint repr (v : pyval) : string :=
  match v with
  | PyNone => "None"
  | PyBool b => if b then "True" else "False"
  | PyInt z => str_of_int z
  | PyFloat _ => "nan"
  | PyStr s => "'" ++ s ++ "'"
  | PyList l => "[" ++ join ", " (map repr l) ++ "]"
  | PyDict d =>
      "{" ++ join ", " (map (fun kv => match kv with
                                       | (k, x) => "'" ++ k ++ "': " ++ repr x
                                       end) d) ++ "}"
  end.

(** [str(v)] *)
Definition to_str (v : pyval) : string :=
  match v with
  | PyStr s => s
  | _ => repr v
  end.

(** The decoded contents of the messages of the examples. *)
Definition ping : pyval :=
  PyDict [("type", PyStr "ping")].

Definition image_request : pyval :=
  PyDict [("type", PyStr "inference_request");
          ("request_type", PyStr "image_generation");
          ("prompt", PyDict [("positive", PyStr "a cat")])].

Definition video_request : pyval :=
  PyDict [("type", PyStr "inference_request");
          ("request_type", PyStr "video_generation");
          ("prompt", PyDict [("prompt", PyStr "a cat walking")]);
          ("options", PyDict [("frames", PyInt 49)])].

Definition distributed_request : pyval :=
  PyDict [("type", PyStr "inference_request");
          ("request_type", PyStr "distributed_inference");
          ("prompt", PyDict [("1", PyDict [("class_type", PyStr "LoadImage")])]);
          ("options", PyDict [("worker_ids", PyList [PyStr "w1"; PyStr "w2"])])].

Definition audio_request : pyval :=
  PyDict [("type", PyStr "inference_request");
          ("request_type", PyStr "audio_generation");
          ("prompt", PyStr "a tune")].

Definition untyped_request : pyval :=
  PyDict [("type", PyStr "inference_request")].

Definition documents : list pyval :=
  [PyDict []; ping; image_request; video_request; distributed_request;
   audio_request; untyped_request].

Definition JSONDecodeError : exn :=
  Exn "JSONDecodeError" "Expecting value: line 1 column 1 (char 0)".

Fixpoint lookup_text (s : string) (docs : list pyval) : result pyval :=
  match docs with
  | [] => throw JSONDecodeError
  | v :: docs' => if String.eqb s (print_json v) then ok v else lookup_text s docs'
  end.

Definition parse_json (s : string) : result pyval := lookup_text s documents.

Definition rt : runtime := Runtime parse_json print_json to_str.

(** A message from [sender] with the JSON text of [content]. *)
Definition message (sender : string) (content : pyval) : pyval :=
  PyDict [("sender", PyStr sender); ("content", PyStr (print_json content))].

(** A message whose content is not JSON. *)
Definition garbled (sender : string) : pyval :=
  PyDict [("sender", PyStr sender); ("content", PyStr "not json")].

Definition reply (code : Z) (body : pyval) : result response :=
  ok {| status_code := code; body_json := ok body |}.

Definition timed_out : result response :=
  throw (Exn "ReadTimeout" "Read timed out. (read timeout=10)").

(** A network that answers the registration with [register], every poll
    with [poll], every request to the ComfyUI backend with [backend], and
    accepts broadcasts and responses. *)
Definition net (register poll backend : result response) : network :=
  fun _ r =>
    match req_method r with
    | GET => poll
    | POST =>
        if String.eqb (req_url r) (MESH_API_URL ++ "/api/agents/register")
        then register
        else if String.prefix COMFYUI_URL (req_url r) then backend
        else reply 200 (PyDict [])
    end.

Definition registration : result response :=
  reply 200 (PyDict [("agentId", PyStr "agent-7")]).

Definition batch (messages : list pyval) : result response :=
  reply 200 (PyDict [("messages", PyList messages)]).

Definition job (id : string) : result response :=
  reply 200 (PyDict [("prompt_id", PyStr id)]).

(** A batch of two: a message that is not JSON, then an image request. *)
Definition mixed_batch : list pyval :=
  [garbled "peer-a"; message "peer-b" image_request].

(** A fresh agent, and the same agent once registered. *)
Definition fresh : state := {| self := init None; trace := [] |}.

Definition registered : state :=
  {| self := with_mesh_agent_id (PyStr "agent-7") (init None); trace := [] |}.

End Demo.

(** A second world, for what agents send to each other: its runtime
    reads back the response to [Demo.image_request], the announcement
    of the default agent and a request with a text prompt. *)
Module Peers.

Definition queued_response : pyval :=
  PyDict [("status", PyStr "queued"); ("prompt_id", PyStr "job-1")].

(** An image request whose prompt is a text, not a dict. *)
Definition text_prompt_request : pyval :=
  PyDict [("type", PyStr "inference_request");
          ("request_type", PyStr "image_generation");
          ("prompt", PyStr "a cat")].

Definition documents : list pyval :=
  [response_envelope Demo.image_request queued_response;
   announcement (init None);
   text_prompt_request].

Definition rt : runtime :=
  Runtime (fun s => Demo.lookup_text s documents) Demo.print_json Demo.to_str.

End Peers.

(** * Properties *)

(** Unfolds the monad operations, leaving strings and values alone. *)
Ltac run_m :=
  cbv beta iota zeta delta
    [bind try_except lift ret get_self set_self emit print sleep
     http requests_post requests_get ok throw log self trace].

(** Starts a proof about a run from the state [st]. *)
Ltac on_state st :=
  let a := fresh "a" in
  let tr := fresh "tr" in
  destruct st as [a tr]; cbn [self trace] in *.

Lemma log_nil (st : state) : log st [] = st.
Proof. destruct st. unfold log. cbn. rewrite app_nil_r. reflexivity. Qed.

Lemma log_log (st : state) (evs1 evs2 : list event) :
  log (log st evs1) evs2 = log st (evs1 ++ evs2).
Proof. unfold log. cbn. rewrite app_assoc. reflexivity. Qed.

Lemma emitted_log {A} (m : M A) (st : state) (evs : list event) :
  snd (m st) = log st evs -> emitted m st = evs.
Proof.
  unfold emitted. intros ->. cbn.
  rewrite skipn_app, skipn_all, Nat.sub_diag. reflexivity.
Qed.

(** ** Computations that only add to the trace *)

Lemma effects_ret {A} (a : A) : effects_only (ret a).
Proof. intros st. exists []. cbn. now rewrite log_nil. Qed.

Lemma effects_lift {A} (r : result A) : effects_only (lift r).
Proof. intros st. exists []. cbn. now rewrite log_nil. Qed.

Lemma effects_get_self : effects_only get_self.
Proof. intros st. exists []. cbn. now rewrite log_nil. Qed.

Lemma effects_emit (e : event) : effects_only (emit e).
Proof. intros st. exists [e]. reflexivity. Qed.

Lemma effects_http (net : network) (r : request) : effects_only (http net r).
Proof. intros st. exists [Http r]. reflexivity. Qed.

Lemma effects_bind {A B} (m : M A) (k : A -> M B) :
  effects_only m -> (forall a, effects_only (k a)) -> effects_only (bind m k).
Proof.
  intros Hm Hk st. unfold bind.
  destruct (Hm st) as [evs1 H1].
  destruct (m st) as [[e|a] st1]; cbn in H1; subst st1.
  - exists evs1. reflexivity.
  - destruct (Hk a (log st evs1)) as [evs2 H2].
    exists (evs1 ++ evs2)%list. rewrite H2. apply log_log.
Qed.

Lemma effects_try {A} (m : M A) (h : exn -> M A) :
  effects_only m -> (forall e, effects_only (h e)) ->
  effects_only (try_except m h).
Proof.
  intros Hm Hh st. unfold try_except.
  destruct (Hm st) as [evs1 H1].
  destruct (m st) as [[e|a] st1]; cbn in H1; subst st1.
  - destruct (Hh e (log st evs1)) as [evs2 H2].
    exists (evs1 ++ evs2)%list. rewrite H2. apply log_log.
  - exists evs1. reflexivity.
Qed.

Lemma effects_for_each (body : pyval -> M unit) (items : list pyval) :
  (forall msg, effects_only (body msg)) -> effects_only (for_each body items).
Proof.
  intros Hb. induction items as [|msg rest IH]; cbn.
  - apply effects_ret.
  - apply effects_bind; auto.
Qed.

(** Proves [effects_only] of a computation built from the above. *)
Ltac effects :=
  repeat first
    [ apply effects_ret | apply effects_lift | apply effects_get_self
    | apply effects_emit | apply effects_http
    | apply effects_bind; [|intro]
    | apply effects_try; [|intro]
    | match goal with
      | |- effects_only (if ?b then _ else _) => destruct b
      end ].

Section Runs.

Variable rt : runtime.
Variable net : network.

(** ** Polling *)

Lemma check_mesh_messages_unregistered (st : state) :
  truthy (mesh_agent_id (self st)) = false ->
  check_mesh_messages rt net st = (ok (PyList []), st).
Proof.
  on_state st. intros H.
  unfold check_mesh_messages. run_m.
  rewrite H. reflexivity.
Qed.

Lemma check_mesh_messages_registered (st : state) :
  truthy (mesh_agent_id (self st)) = true ->
  check_mesh_messages rt net st =
    (ok match net (trace st) (poll_request rt (self st)) with
        | inr resp =>
            if status_code resp =? 200 then
              match body_json resp with
              | inr data =>
                  match py_get data "messages" (PyList []) with
                  | inr messages => messages
                  | inl _ => PyList []
                  end
              | inl _ => PyList []
              end
            else PyList []
        | inl _ => PyList []
        end,
     log st [Http (poll_request rt (self st))]).
Proof.
  on_state st. intros H.
  unfold check_mesh_messages, poll_request. run_m.
  rewrite H. cbv beta iota delta [negb].
  destruct (net _ _) as [e|resp]; [reflexivity|].
  destruct (status_code resp =? 200); [|reflexivity].
  destruct (body_json resp) as [e|data]; [reflexivity|].
  destruct (py_get data "messages" (PyList [])); reflexivity.
Qed.

(** ** Submission *)

Lemma generate_image_run (prompt options : pyval) (st : state) :
  generate_image net prompt options st =
    match generate_image_workflow prompt options with
    | inl e => (ok (error_result (exn_msg e)), st)
    | inr workflow =>
        let r := prompt_request (self st) workflow "mesh-agent" in
        (ok (queued_result (net (trace st) r)), log st [Http r])
    end.
Proof.
  on_state st.
  unfold generate_image, prompt_request, queued_result, error_result. run_m.
  destruct (generate_image_workflow prompt options) as [e|workflow];
    [reflexivity|].
  destruct (net _ _) as [e|resp]; [reflexivity|].
  destruct (status_code resp =? 200); [|reflexivity].
  destruct (body_json resp) as [e|data]; [reflexivity|].
  destruct (py_get data "prompt_id" PyNone); reflexivity.
Qed.

Lemma generate_video_run (prompt options : pyval) (st : state) :
  generate_video net prompt options st =
    match generate_video_workflow prompt options with
    | inl e => (ok (error_result (exn_msg e)), st)
    | inr workflow =>
        let r := prompt_request (self st) workflow "mesh-agent-video" in
        (ok (queued_result (net (trace st) r)), log st [Http r])
    end.
Proof.
  on_state st.
  unfold generate_video, prompt_request, queued_result, error_result. run_m.
  destruct (generate_video_workflow prompt options) as [e|workflow];
    [reflexivity|].
  destruct (net _ _) as [e|resp]; [reflexivity|].
  destruct (status_code resp =? 200); [|reflexivity].
  destruct (body_json resp) as [e|data]; [reflexivity|].
  destruct (py_get data "prompt_id" PyNone); reflexivity.
Qed.

Lemma queue_distributed_workflow_run (workflow options : pyval) (st : state) :
  queue_distributed_workflow net workflow options st =
    match distributed_payload workflow options with
    | inl e => (ok (error_result (exn_msg e)), st)
    | inr payload =>
        let r := distributed_request (self st) payload in
        (ok (distributed_result (net (trace st) r)), log st [Http r])
    end.
Proof.
  on_state st.
  unfold queue_distributed_workflow, distributed_request, distributed_result,
    error_result. run_m.
  destruct (distributed_payload workflow options) as [e|payload];
    [reflexivity|].
  destruct (net _ _) as [e|resp]; [reflexivity|].
  destruct (status_code resp =? 200); [|reflexivity].
  destruct (body_json resp) as [e|data]; [reflexivity|].
  destruct (py_get data "prompt_id" PyNone); [reflexivity|].
  destruct (py_get data "worker_count" (PyInt 1)); reflexivity.
Qed.

(** The submission functions capture every failure in their result. *)
Lemma dispatch_returns (request_type prompt options : pyval) (st : state) :
  exists r st', dispatch rt net request_type prompt options st = (ok r, st').
Proof.
  unfold dispatch.
  destruct (eq_str request_type "image_generation").
  { rewrite generate_image_run.
    destruct (generate_image_workflow prompt options); eauto. }
  destruct (eq_str request_type "video_generation").
  { rewrite generate_video_run.
    destruct (generate_video_workflow prompt options); eauto. }
  destruct (eq_str request_type "distributed_inference").
  { rewrite queue_distributed_workflow_run.
    destruct (distributed_payload prompt options); eauto. }
  unfold ret. eauto.
Qed.

(** ** Processing one message *)

Lemma decode_dict (message content : pyval) :
  decode rt message = ok content -> exists m, message = PyDict m.
Proof.
  destruct message; try discriminate. eauto.
Qed.

(** Content that does not decode: the exception becomes an error result. *)
Lemma process_undecodable (message : pyval) (e : exn) (st : state) :
  decode rt message = inl e ->
  process_inference_request rt net message st =
    (ok (error_result (exn_msg e)), st).
Proof.
  on_state st. unfold decode, process_inference_request. run_m.
  destruct (py_get message "content" (PyStr "{}")) as [e1|raw].
  - intros [= ->]. reflexivity.
  - intros ->. reflexivity.
Qed.

(** Content that decodes to something other than a dict. *)
Lemma process_not_a_dict (message content : pyval) (st : state) :
  decode rt message = ok content ->
  (forall body, content <> PyDict body) ->
  process_inference_request rt net message st =
    (ok (error_result (exn_msg (AttributeError content "get"))), st).
Proof.
  on_state st. unfold decode, process_inference_request. run_m.
  destruct (py_get message "content" (PyStr "{}")) as [e1|raw];
    [discriminate|].
  intros -> Hc.
  destruct content; try reflexivity.
  exfalso. eapply Hc. reflexivity.
Qed.

(** Another discriminant than [inference_request]: [None], no effect. *)
Lemma process_other_type (message : pyval) (body : list (string * pyval))
    (st : state) :
  decode rt message = ok (PyDict body) ->
  eq_str (dict_get body "type" PyNone) "inference_request" = false ->
  process_inference_request rt net message st = (ok PyNone, st).
Proof.
  on_state st. unfold decode, process_inference_request. run_m.
  destruct (py_get message "content" (PyStr "{}")) as [e1|raw];
    [discriminate|].
  intros -> Ht. cbv beta iota delta [py_get ok]. rewrite Ht. reflexivity.
Qed.

(** A request is routed by its kind, once the line is printed. *)
Lemma process_request (message : pyval) (body : list (string * pyval))
    (st : state) :
  is_request rt message body ->
  process_inference_request rt net message st =
    dispatch rt net
      (dict_get body "request_type" PyNone)
      (dict_get body "prompt" PyNone)
      (dict_get body "options" (PyDict []))
      (log st [received_log rt (dict_get body "request_type" PyNone)
                 (sender_of message)]).
Proof.
  intros [Hd Ht].
  destruct (decode_dict _ _ Hd) as [m ->].
  destruct (dispatch_returns
              (dict_get body "request_type" PyNone)
              (dict_get body "prompt" PyNone)
              (dict_get body "options" (PyDict []))
              (log st [received_log rt (dict_get body "request_type" PyNone)
                         (sender_of (PyDict m))])) as (r & st' & Hr).
  rewrite Hr. revert Hr Hd.
  on_state st. unfold decode, process_inference_request, received_log,
    sender_of, dispatch, error_result. run_m.
  cbv beta iota delta [py_get ok].
  intros Hr ->.
  cbv beta iota. rewrite Ht. cbv beta iota delta [negb].
  destruct (eq_str (dict_get body "request_type" PyNone) "image_generation").
  { rewrite Hr. reflexivity. }
  destruct (eq_str (dict_get body "request_type" PyNone) "video_generation").
  { rewrite Hr. reflexivity. }
  destruct (eq_str (dict_get body "request_type" PyNone)
              "distributed_inference").
  { rewrite Hr. reflexivity. }
  injection Hr as <- <-. reflexivity.
Qed.

(** ** Sending a response *)

(** The payload embeds the decoded original request: content that does
    not decode raises out of [send_response], before any request. *)
Lemma send_response_undecodable (message response : pyval) (e : exn)
    (st : state) :
  decode rt message = inl e ->
  send_response rt net message response st = (inl e, st).
Proof.
  on_state st. unfold decode, send_response. run_m.
  destruct (py_get message "content" (PyStr "{}")) as [e1|raw].
  - intros [= ->]. reflexivity.
  - intros ->. reflexivity.
Qed.

Lemma send_response_run (message original_request response : pyval)
    (st : state) :
  decode rt message = ok original_request ->
  let r := send_request rt (self st) original_request response
             (sender_of message) in
  send_response rt net message response st =
    (ok tt, log st [Http r; send_log rt net (trace st) r (sender_of message)]).
Proof.
  intros Hd. destruct (decode_dict _ _ Hd) as [m ->]. revert Hd.
  on_state st. unfold decode, send_response, send_request, send_log,
    sender_of. run_m.
  cbv beta iota delta [py_get ok].
  intros ->. cbv beta iota.
  destruct (net _ _) as [e|resp]; cbv beta iota;
    rewrite <- app_assoc; reflexivity.
Qed.

(** ** One message of the batch *)

Lemma effects_process (message : pyval) :
  effects_only (process_inference_request rt net message).
Proof.
  unfold process_inference_request, generate_image, generate_video,
    queue_distributed_workflow, requests_post, print.
  effects.
Qed.

Lemma effects_send (message response : pyval) :
  effects_only (send_response rt net message response).
Proof. unfold send_response, requests_post, print. effects. Qed.

Lemma effects_handle (message : pyval) :
  effects_only (handle_message rt net message).
Proof.
  unfold handle_message. apply effects_bind.
  - apply effects_process.
  - intros r. destruct (truthy r).
    + apply effects_send.
    + apply effects_ret.
Qed.

(** Every result of the routing is a non-empty dict. *)
Lemma dispatch_truthy (request_type prompt options r : pyval)
    (st st' : state) :
  dispatch rt net request_type prompt options st = (ok r, st') ->
  truthy r = true.
Proof.
  unfold dispatch.
  destruct (eq_str request_type "image_generation").
  { rewrite generate_image_run.
    destruct (generate_image_workflow prompt options).
    - intros [= <- _]. reflexivity.
    - cbv zeta. intros [= <- _]. unfold queued_result.
      repeat match goal with
             | |- context [match ?x with _ => _ end] => destruct x
             end; reflexivity. }
  destruct (eq_str request_type "video_generation").
  { rewrite generate_video_run.
    destruct (generate_video_workflow prompt options).
    - intros [= <- _]. reflexivity.
    - cbv zeta. intros [= <- _]. unfold queued_result.
      repeat match goal with
             | |- context [match ?x with _ => _ end] => destruct x
             end; reflexivity. }
  destruct (eq_str request_type "distributed_inference").
  { rewrite queue_distributed_workflow_run.
    destruct (distributed_payload prompt options).
    - intros [= <- _]. reflexivity.
    - cbv zeta. intros [= <- _]. unfold distributed_result.
      repeat match goal with
             | |- context [match ?x with _ => _ end] => destruct x
             end; reflexivity. }
  intros [= <- _]. reflexivity.
Qed.

(** A message whose content does not decode: the error result of
    [process_inference_request] is handed to [send_response], which
    raises the same exception again. *)
Lemma handle_undecodable (message : pyval) (e : exn) (st : state) :
  decode rt message = inl e ->
  handle_message rt net message st = (inl e, st).
Proof.
  intros Hd. unfold handle_message, bind.
  rewrite (process_undecodable _ _ _ Hd). cbn [truthy error_result].
  apply send_response_undecodable, Hd.
Qed.

Lemma handle_other_type (message : pyval) (body : list (string * pyval))
    (st : state) :
  decode rt message = ok (PyDict body) ->
  eq_str (dict_get body "type" PyNone) "inference_request" = false ->
  handle_message rt net message st = (ok tt, st).
Proof.
  intros Hd Ht. unfold handle_message, bind.
  rewrite (process_other_type _ _ _ Hd Ht). reflexivity.
Qed.

(** The result of a request, whatever it is, is sent to the sender of
    the message together with the decoded request. *)
Lemma handle_request (message : pyval) (body : list (string * pyval))
    (r : pyval) (st st1 : state) :
  is_request rt message body ->
  process_inference_request rt net message st = (ok r, st1) ->
  let s := send_request rt (self st) (PyDict body) r (sender_of message) in
  handle_message rt net message st =
    (ok tt,
     log st1 [Http s; send_log rt net (trace st1) s (sender_of message)]).
Proof.
  intros Hq Hp. cbv zeta.
  assert (Hself : self st1 = self st).
  { destruct (effects_process message st) as [evs He].
    rewrite Hp in He. cbn in He. subst st1. reflexivity. }
  unfold handle_message, bind. rewrite Hp. cbv beta iota delta [ok].
  rewrite (process_request _ _ _ Hq) in Hp.
  rewrite (dispatch_truthy _ _ _ _ _ _ Hp).
  destruct Hq as [Hd _].
  rewrite (send_response_run _ _ r st1 Hd). rewrite Hself. reflexivity.
Qed.

(** ** One batch *)

(** The messages after one that raises are not handled. *)
Lemma for_each_raises (body : pyval -> M unit) (before after : list pyval)
    (msg : pyval) (e : exn) (st st1 : state) :
  for_each body before st = (ok tt, st1) ->
  body msg st1 = (inl e, st1) ->
  for_each body (before ++ msg :: after) st = (inl e, st1).
Proof.
  revert st. induction before as [|m0 before IH]; intros st; cbn.
  - unfold ret. intros [= <-] Hb. unfold bind. rewrite Hb. reflexivity.
  - unfold bind. destruct (body m0 st) as [[e0|[]] st0].
    + discriminate.
    + auto.
Qed.

Lemma effects_cycle : effects_only (listen_cycle rt net).
Proof.
  unfold listen_cycle. apply effects_try.
  - apply effects_bind.
    + unfold check_mesh_messages, requests_get. effects.
    + intros messages. apply effects_bind; [apply effects_lift|].
      intros items. apply effects_bind.
      * apply effects_for_each, effects_handle.
      * intros _. apply effects_emit.
  - intros e. unfold print, sleep. effects.
Qed.

(** An iteration of the loop always completes: whatever is raised inside
    is caught and followed by the back-off sleep. *)
Lemma listen_cycle_returns : returns (listen_cycle rt net).
Proof.
  intros st. unfold listen_cycle, try_except.
  match goal with |- context [match ?m st with _ => _ end] =>
    destruct (m st) as [[e|[]] st1] end.
  - run_m. eauto.
  - eauto.
Qed.

End Runs.

(** * The registry client and [start] *)

Section Registration.

Variable rt : runtime.
Variable net : network.

Lemma register_with_mesh_fails (st : state) :
  let r := register_request (self st) in
  registration_fails (net (trace (log st [registering_log (self st)])) r) ->
  exists line,
    register_with_mesh rt net st =
      (ok false, log st [registering_log (self st); Http r; Print line]).
Proof.
  on_state st. unfold registration_fails, register_with_mesh,
    register_request, registering_log. run_m.
  destruct (net _ _) as [e|resp]; cbv beta iota.
  - intros _. eexists. rewrite <- !app_assoc. reflexivity.
  - intros Hcode. apply Z.eqb_neq in Hcode. rewrite Hcode.
    eexists. rewrite <- !app_assoc. reflexivity.
Qed.

(** C7. If the registration fails (the transport raises, a timeout among
    its failures, or the status is not 200), [start] returns after the
    registration request and the line that logs the failure: nothing is
    announced, nothing is polled, no response is sent, and the fields of
    the agent, the assigned id among them, are as before (unset for a
    fresh agent). *)
Theorem failed_registration_aborts_start (st : state) (cycles : nat) :
  let r := register_request (self st) in
  registration_fails (net (trace (log st [registering_log (self st)])) r) ->
  exists st',
    start rt net cycles st = (ok tt, st') /\
    http_requests (emitted (start rt net cycles) st) = [r] /\
    responses_sent (emitted (start rt net cycles) st) = [] /\
    self st' = self st /\
    (mesh_agent_id (self st) = PyNone -> mesh_agent_id (self st') = PyNone).
Proof.
  intros r Hfail.
  destruct (register_with_mesh_fails st Hfail) as [line Hreg].
  fold r in Hreg.
  assert (Hstart : start rt net cycles st =
            (ok tt, log st [registering_log (self st); Http r; Print line])).
  { unfold start, bind. rewrite Hreg. reflexivity. }
  eexists. split; [exact Hstart|].
  assert (He : emitted (start rt net cycles) st =
                 [registering_log (self st); Http r; Print line]).
  { apply emitted_log. rewrite Hstart. reflexivity. }
  rewrite He. split; [reflexivity|]. split; [reflexivity|].
  split; [reflexivity|]. intros Hid. exact Hid.
Qed.

End Registration.

(** A registration that times out, on a fresh agent observed for three
    cycles. *)
Lemma failed_registration_aborts_start_witness :
  exists st',
    start Demo.rt (Demo.net Demo.timed_out (Demo.batch []) (Demo.job "job-1"))
      3 Demo.fresh = (ok tt, st') /\
    mesh_agent_id (self st') = PyNone.
Proof.
  destruct (failed_registration_aborts_start Demo.rt
              (Demo.net Demo.timed_out (Demo.batch []) (Demo.job "job-1"))
              Demo.fresh 3 I) as (st' & Hs & _ & _ & _ & Hid).
  exists st'. split; [exact Hs | exact (Hid eq_refl)].
Defined.

(** * The message channel *)

Section Channel.

Variable rt : runtime.
Variable net : network.

(** C8. [check_mesh_messages] never raises; it returns the empty list
    when the agent has no assigned id (without any request), when the
    request raises, and when the status is not 200. *)
Theorem poll_degrades_to_empty (st : state) :
  (exists messages st',
     check_mesh_messages rt net st = (ok messages, st')) /\
  (truthy (mesh_agent_id (self st)) = false ->
   check_mesh_messages rt net st = (ok (PyList []), st)) /\
  (forall e,
     net (trace st) (poll_request rt (self st)) = inl e ->
     fst (check_mesh_messages rt net st) = ok (PyList [])) /\
  (forall resp,
     net (trace st) (poll_request rt (self st)) = inr resp ->
     status_code resp <> 200 ->
     fst (check_mesh_messages rt net st) = ok (PyList [])).
Proof.
  destruct (truthy (mesh_agent_id (self st))) eqn:Hid.
  - rewrite (check_mesh_messages_registered rt net st Hid).
    split; [eauto|]. split; [discriminate|]. split.
    + intros e ->. reflexivity.
    + intros resp -> Hcode. apply Z.eqb_neq in Hcode. cbn [fst].
      rewrite Hcode. reflexivity.
  - rewrite (check_mesh_messages_unregistered rt net st Hid).
    split; [eauto|]. repeat split; reflexivity.
Qed.

(** C9. A message whose decoded content has another discriminant than
    [inference_request] is skipped: no exception, no response, no effect
    at all.  So is a message without content, which decodes as the empty
    payload. *)
Theorem other_messages_are_skipped (message : pyval) (st : state) :
  (forall body,
     decode rt message = ok (PyDict body) ->
     eq_str (dict_get body "type" PyNone) "inference_request" = false ->
     handle_message rt net message st = (ok tt, st)) /\
  (forall m,
     message = PyDict m ->
     assoc "content" m = None ->
     loads rt "{}" = ok (PyDict []) ->
     handle_message rt net message st = (ok tt, st)).
Proof.
  split.
  - intros body Hd Ht. exact (handle_other_type rt net _ _ st Hd Ht).
  - intros m -> Hc Hl. apply (handle_other_type rt net _ [] st).
    + unfold decode, py_get, dict_get. rewrite Hc. exact Hl.
    + reflexivity.
Qed.

End Channel.

(** An unregistered agent, a poll that times out, a poll answered 503. *)
Lemma poll_degrades_to_empty_witness :
  check_mesh_messages Demo.rt
    (Demo.net Demo.registration (Demo.batch []) (Demo.job "job-1"))
    Demo.fresh = (ok (PyList []), Demo.fresh) /\
  fst (check_mesh_messages Demo.rt
         (Demo.net Demo.registration Demo.timed_out (Demo.job "job-1"))
         Demo.registered) = ok (PyList []) /\
  fst (check_mesh_messages Demo.rt
         (Demo.net Demo.registration (Demo.reply 503 PyNone)
            (Demo.job "job-1"))
         Demo.registered) = ok (PyList []).
Proof.
  split; [|split].
  - apply (proj1 (proj2 (poll_degrades_to_empty Demo.rt _ Demo.fresh))).
    reflexivity.
  - eapply (proj1 (proj2 (proj2
              (poll_degrades_to_empty Demo.rt _ Demo.registered)))).
    reflexivity.
  - eapply (proj2 (proj2 (proj2
              (poll_degrades_to_empty Demo.rt _ Demo.registered)))).
    + reflexivity.
    + cbn. lia.
Defined.

(** A ping, and a message that has only a sender. *)
Lemma other_messages_are_skipped_witness :
  handle_message Demo.rt
    (Demo.net Demo.registration (Demo.batch []) (Demo.job "job-1"))
    (Demo.message "peer-a" Demo.ping) Demo.registered
    = (ok tt, Demo.registered) /\
  handle_message Demo.rt
    (Demo.net Demo.registration (Demo.batch []) (Demo.job "job-1"))
    (PyDict [("sender", PyStr "peer-a")]) Demo.registered
    = (ok tt, Demo.registered).
Proof.
  split.
  - eapply (proj1 (other_messages_are_skipped Demo.rt _ _ Demo.registered)).
    + vm_compute. reflexivity.
    + reflexivity.
  - eapply (proj2 (other_messages_are_skipped Demo.rt _ _ Demo.registered)).
    + reflexivity.
    + reflexivity.
    + vm_compute. reflexivity.
Defined.

(** * The dispatch loop *)

Lemma http_requests_app (evs1 evs2 : list event) :
  http_requests (evs1 ++ evs2) = (http_requests evs1 ++ http_requests evs2)%list.
Proof.
  induction evs1 as [|[line|r|n] evs1 IH]; cbn; [reflexivity| | |];
    now rewrite ?IH.
Qed.

Lemma responses_sent_app (evs1 evs2 : list event) :
  responses_sent (evs1 ++ evs2)
  = (responses_sent evs1 ++ responses_sent evs2)%list.
Proof.
  unfold responses_sent. now rewrite http_requests_app, filter_app.
Qed.

Section Batches.

Variable rt : runtime.
Variable net : network.

Lemma responses_sent_send (a : agent) (tr : list event)
    (original_request response recipient : pyval) :
  let s := send_request rt a original_request response recipient in
  responses_sent [Http s; send_log rt net tr s recipient] = [s].
Proof. cbv zeta. unfold send_log. destruct (net _ _); reflexivity. Qed.

(** The routing adds at most a submission to the backend: its result is
    a non-empty dict and it sends no response itself. *)
Lemma dispatch_run (request_type prompt options : pyval) (st : state) :
  exists r evs,
    dispatch rt net request_type prompt options st = (ok r, log st evs) /\
    truthy r = true /\
    responses_sent evs = [].
Proof.
  destruct (dispatch_returns rt net request_type prompt options st)
    as (r & st' & Hr).
  exists r. pose proof (dispatch_truthy rt net _ _ _ _ _ _ Hr) as Ht.
  revert Hr. unfold dispatch.
  destruct (eq_str request_type "image_generation").
  { rewrite generate_image_run.
    destruct (generate_image_workflow prompt options); intros [= <- <-].
    - exists []. rewrite log_nil. auto.
    - eexists. split; [reflexivity|]. split; [assumption | reflexivity]. }
  destruct (eq_str request_type "video_generation").
  { rewrite generate_video_run.
    destruct (generate_video_workflow prompt options); intros [= <- <-].
    - exists []. rewrite log_nil. auto.
    - eexists. split; [reflexivity|]. split; [assumption | reflexivity]. }
  destruct (eq_str request_type "distributed_inference").
  { rewrite queue_distributed_workflow_run.
    destruct (distributed_payload prompt options) as [e|payload] eqn:Hp;
      intros [= <- <-].
    - exists []. rewrite log_nil. auto.
    - eexists. split; [reflexivity|]. split; [assumption|].
      destruct options; try discriminate.
      injection Hp as <-. reflexivity. }
  intros [= <- <-]. exists []. rewrite log_nil. auto.
Qed.

(** A message whose content is JSON is handled without raising, and is
    answered with one response unless it is a dict of another type than
    [inference_request]. *)
Lemma handle_decodable (message : pyval) (st : state) :
  decodes rt message ->
  exists evs,
    handle_message rt net message st = (ok tt, log st evs) /\
    List.length (responses_sent evs)
    = if answered rt message then 1%nat else 0%nat.
Proof.
  intros [content Hd]. unfold answered. rewrite Hd.
  assert (Hother :
    (forall body, content <> PyDict body) ->
    exists evs,
      handle_message rt net message st = (ok tt, log st evs) /\
      List.length (responses_sent evs) = 1%nat).
  { intros Hc. unfold handle_message, bind.
    rewrite (process_not_a_dict rt net _ _ st Hd Hc).
    cbv beta iota delta [ok error_result truthy].
    rewrite (send_response_run rt net _ _ _ st Hd).
    eexists. split; [reflexivity|].
    rewrite responses_sent_send. reflexivity. }
  destruct content as [| | | | |l|body];
    try (destruct Hother as (evs & He & Hn); [discriminate|];
         exists evs; split; [exact He | exact Hn]).
  cbv beta iota delta [ok].
  destruct (eq_str (dict_get body "type" PyNone) "inference_request") eqn:Ht.
  - assert (Hq : is_request rt message body) by (split; assumption).
    destruct (dispatch_run
                (dict_get body "request_type" PyNone)
                (dict_get body "prompt" PyNone)
                (dict_get body "options" (PyDict []))
                (log st [received_log rt (dict_get body "request_type" PyNone)
                           (sender_of message)]))
      as (r & evs & Hr & _ & Hs).
    rewrite <- (process_request rt net _ _ st Hq) in Hr.
    rewrite (handle_request rt net _ _ _ _ _ Hq Hr).
    rewrite !log_log. eexists. split; [reflexivity|].
    rewrite !responses_sent_app, Hs, responses_sent_send. reflexivity.
  - rewrite (handle_other_type rt net _ _ st Hd Ht).
    exists []. rewrite log_nil. split; reflexivity.
Qed.

(** A batch all of whose contents are JSON is handled to its end, one
    response per answered message. *)
Lemma for_each_decodable (items : list pyval) (st : state) :
  Forall (decodes rt) items ->
  exists evs,
    for_each (handle_message rt net) items st = (ok tt, log st evs) /\
    List.length (responses_sent evs)
    = List.length (filter (answered rt) items).
Proof.
  intros Hall. revert st.
  induction Hall as [|message items Hm _ IH]; intros st; cbn [for_each].
  - exists []. rewrite log_nil. split; reflexivity.
  - destruct (handle_decodable message st Hm) as (evs1 & H1 & N1).
    destruct (IH (log st evs1)) as (evs2 & H2 & N2).
    exists (evs1 ++ evs2)%list. unfold bind. rewrite H1, H2, log_log.
    split; [reflexivity|].
    rewrite responses_sent_app, length_app, N1, N2. cbn [filter].
    destruct (answered rt message); reflexivity.
Qed.

(** The cycle on such a batch: every message is handled, then the loop
    sleeps 10 seconds. *)
Lemma decodable_batch_is_processed (items : list pyval) (st st1 : state) :
  check_mesh_messages rt net st = (ok (PyList items), st1) ->
  Forall (decodes rt) items ->
  exists evs,
    listen_cycle rt net st = (ok tt, log st1 (evs ++ [Sleep 10])) /\
    List.length (responses_sent evs)
    = List.length (filter (answered rt) items).
Proof.
  intros Hpoll Hall.
  destruct (for_each_decodable items st1 Hall) as (evs & He & Hn).
  exists evs. split; [|exact Hn].
  unfold listen_cycle, try_except, bind at 1. rewrite Hpoll.
  unfold bind at 1, lift, py_iter, ok. unfold bind at 1.
  unfold ok in He. rewrite He.
  unfold sleep, emit, log. cbn [self trace]. rewrite app_assoc. reflexivity.
Qed.

End Batches.

Section Dispatch.

Variable rt : runtime.
Variable net : network.

(** C1, as the code has it.  When a message of the polled batch has
    content that does not decode, [process_inference_request] turns the
    exception into an error result, [send_response] raises it again while
    building the payload, and the handler of the loop ends the cycle with
    the back-off sleep: no response is sent for that message, and the
    messages after it are neither processed nor answered. *)
Theorem malformed_message_aborts_batch (st st1 st2 : state)
    (before after : list pyval) (bad : pyval) (e : exn) :
  check_mesh_messages rt net st = (ok (PyList (before ++ bad :: after)), st1) ->
  for_each (handle_message rt net) before st1 = (ok tt, st2) ->
  decode rt bad = inl e ->
  listen_cycle rt net st =
    (ok tt, log st2 [Print ("Error in listen loop: " ++ exn_msg e); Sleep 30]).
Proof.
  intros Hpoll Hbefore Hbad.
  unfold listen_cycle, try_except, bind at 1. rewrite Hpoll.
  unfold bind at 1, lift, py_iter, ok. unfold bind at 1.
  rewrite (for_each_raises _ before after bad e st1 st2 Hbefore
             (handle_undecodable rt net bad e st2 Hbad)).
  destruct st2 as [a tr]. unfold print, sleep. run_m.
  rewrite <- app_assoc. reflexivity.
Qed.

(** A request that names no kind has the kind [None], which is none of
    the three. *)
Lemma missing_kind_is_unknown (body : list (string * pyval)) :
  assoc "request_type" body = None ->
  known_kind (dict_get body "request_type" PyNone) = false.
Proof. intros H. unfold dict_get. rewrite H. reflexivity. Qed.

(** C3. A request whose kind is none of the three known ones (a missing
    kind reads as [None]) gets the error result directly: the only
    effects are the printed line and the response to the sender; no job
    graph is built or submitted. *)
Theorem unknown_kind_is_answered_with_error (message : pyval)
    (body : list (string * pyval)) (st : state) :
  is_request rt message body ->
  known_kind (dict_get body "request_type" PyNone) = false ->
  let request_type := dict_get body "request_type" PyNone in
  let r := error_result ("Unknown request type: " ++ str rt request_type) in
  let st1 := log st [received_log rt request_type (sender_of message)] in
  let s := send_request rt (self st) (PyDict body) r (sender_of message) in
  process_inference_request rt net message st = (ok r, st1) /\
  status_of r = Some error /\
  handle_message rt net message st =
    (ok tt,
     log st1 [Http s; send_log rt net (trace st1) s (sender_of message)]) /\
  http_requests (emitted (handle_message rt net message) st) = [s] /\
  posted_graphs [s] = [].
Proof.
  intros Hq Hk request_type r st1 s.
  assert (Hp : process_inference_request rt net message st = (ok r, st1)).
  { rewrite (process_request rt net _ _ st Hq). fold request_type.
    unfold known_kind in Hk. fold request_type in Hk.
    apply orb_false_elim in Hk as [Hk Hd].
    apply orb_false_elim in Hk as [Hi Hv].
    unfold dispatch. rewrite Hi, Hv, Hd. reflexivity. }
  pose proof (handle_request rt net _ _ _ st st1 Hq Hp) as Hh.
  cbv zeta in Hh. fold s in Hh.
  repeat split; try assumption.
  rewrite (emitted_log _ st
             [received_log rt request_type (sender_of message); Http s;
              send_log rt net (trace st1) s (sender_of message)]).
  - unfold received_log, send_log. cbn [http_requests].
    destruct (net (trace st1) s); reflexivity.
  - rewrite Hh. unfold st1. cbn [snd]. rewrite log_log. reflexivity.
Qed.

End Dispatch.

(** The batch [Demo.mixed_batch]: the first message is not JSON, the
    second is an image request.  The cycle sends no response at all. *)
Lemma malformed_message_aborts_batch_witness :
  listen_cycle Demo.rt
    (Demo.net Demo.registration (Demo.batch Demo.mixed_batch)
       (Demo.job "job-1"))
    Demo.registered
  = (ok tt,
     log Demo.registered
       [Http (poll_request Demo.rt (self Demo.registered));
        Print "Error in listen loop: Expecting value: line 1 column 1 (char 0)";
        Sleep 30]).
Proof.
  rewrite (malformed_message_aborts_batch Demo.rt
             (Demo.net Demo.registration (Demo.batch Demo.mixed_batch)
                (Demo.job "job-1"))
             Demo.registered
             (log Demo.registered
                [Http (poll_request Demo.rt (self Demo.registered))])
             (log Demo.registered
                [Http (poll_request Demo.rt (self Demo.registered))])
             [] [Demo.message "peer-b" Demo.image_request]
             (Demo.garbled "peer-a") Demo.JSONDecodeError
             eq_refl eq_refl eq_refl).
  reflexivity.
Defined.

(** A request for audio, and a request that names no kind. *)
Lemma unknown_kind_is_answered_with_error_witness :
  fst (process_inference_request Demo.rt
         (Demo.net Demo.registration (Demo.batch []) (Demo.job "job-1"))
         (Demo.message "peer-a" Demo.audio_request) Demo.registered)
  = ok (error_result "Unknown request type: audio_generation") /\
  fst (process_inference_request Demo.rt
         (Demo.net Demo.registration (Demo.batch []) (Demo.job "job-1"))
         (Demo.message "peer-a" Demo.untyped_request) Demo.registered)
  = ok (error_result "Unknown request type: None").
Proof.
  split.
  - rewrite (proj1 (unknown_kind_is_answered_with_error Demo.rt
                      (Demo.net Demo.registration (Demo.batch [])
                         (Demo.job "job-1"))
                      (Demo.message "peer-a" Demo.audio_request)
                      [("type", PyStr "inference_request");
                       ("request_type", PyStr "audio_generation");
                       ("prompt", PyStr "a tune")]
                      Demo.registered
                      (conj eq_refl eq_refl) eq_refl)).
    reflexivity.
  - rewrite (proj1 (unknown_kind_is_answered_with_error Demo.rt
                      (Demo.net Demo.registration (Demo.batch [])
                         (Demo.job "job-1"))
                      (Demo.message "peer-a" Demo.untyped_request)
                      [("type", PyStr "inference_request")]
                      Demo.registered
                      (conj eq_refl eq_refl) eq_refl)).
    reflexivity.
Defined.

(** * Inference results *)

Lemma error_result_invariant (detail : string) :
  result_invariant (error_result detail).
Proof.
  exists error. cbn. repeat split; try discriminate; intros H; now elim H.
Qed.

Lemma queued_result_invariant (answer : result response) :
  result_invariant (queued_result answer).
Proof.
  unfold queued_result.
  destruct answer as [e|resp]; [apply error_result_invariant|].
  destruct (status_code resp =? 200); [|apply error_result_invariant].
  destruct (body_json resp) as [e|data]; [apply error_result_invariant|].
  destruct (py_get data "prompt_id" PyNone) as [e|handle];
    [apply error_result_invariant|].
  exists queued. cbn. repeat split; try discriminate; intros H; now elim H.
Qed.

Lemma distributed_result_invariant (answer : result response) :
  result_invariant (distributed_result answer).
Proof.
  unfold distributed_result.
  destruct answer as [e|resp]; [apply error_result_invariant|].
  destruct (status_code resp =? 200); [|apply error_result_invariant].
  destruct (body_json resp) as [e|data]; [apply error_result_invariant|].
  destruct (py_get data "prompt_id" PyNone) as [e|handle];
    [apply error_result_invariant|].
  destruct (py_get data "worker_count" (PyInt 1)) as [e|count];
    [apply error_result_invariant|].
  exists distributed_queued. cbn.
  repeat split; try discriminate; intros H; now elim H.
Qed.

Lemma backend_accepted_answer (answer : result response)
    (data : list (string * pyval)) :
  backend_accepted answer data ->
  queued_result answer = queued_with data /\
  distributed_result answer = distributed_queued_with data.
Proof.
  intros (resp & -> & Hc & Hb).
  unfold queued_result, distributed_result, ok. rewrite Hc, Hb.
  split; reflexivity.
Qed.

Lemma queued_result_cases (answer : result response) :
  (exists detail, queued_result answer = error_result detail) \/
  (exists data, backend_accepted answer data /\
                queued_result answer = queued_with data).
Proof.
  unfold queued_result.
  destruct answer as [e|resp]; [left; eauto|].
  destruct (status_code resp =? 200) eqn:Hc; [|left; eauto].
  destruct (body_json resp) as [e|data] eqn:Hb; [left; eauto|].
  destruct data as [| | | | | |data]; try (left; eexists; reflexivity).
  right. exists data. split; [|reflexivity].
  exists resp. apply Z.eqb_eq in Hc. split; [reflexivity|]. split; assumption.
Qed.

Lemma distributed_result_cases (answer : result response) :
  (exists detail, distributed_result answer = error_result detail) \/
  (exists data, backend_accepted answer data /\
                distributed_result answer = distributed_queued_with data).
Proof.
  unfold distributed_result.
  destruct answer as [e|resp]; [left; eauto|].
  destruct (status_code resp =? 200) eqn:Hc; [|left; eauto].
  destruct (body_json resp) as [e|data] eqn:Hb; [left; eauto|].
  destruct data as [| | | | | |data]; try (left; eexists; reflexivity).
  right. exists data. split; [|reflexivity].
  exists resp. apply Z.eqb_eq in Hc. split; [reflexivity|]. split; assumption.
Qed.

Section Results.

Variable rt : runtime.
Variable net : network.

(** C2, as the code has it.  Each of the three submission functions
    returns, without raising, a dict of one of two shapes.  The error
    dict has an [error] entry and nothing else: no [status] entry, no
    [prompt_id].  The success dict has [status] [queued]
    ([distributed_queued] on the distributed path) and the [prompt_id]
    entry of the backend's body, [None] when the body has none (with
    [worker_count], 1 by default, on the distributed path); it is
    returned exactly when the graph or payload was built and the backend
    answered with status 200 and a JSON object.  A status other than 200
    gives the error whose detail ends with that status, and the result of
    a request, this one included, is sent to the sender of the
    message. *)
Theorem inference_results_have_two_shapes :
  (forall prompt options st,
     exists r st',
       generate_image net prompt options st = (ok r, st') /\
       submission_outcome (generate_image_workflow prompt options)
         (fun graph =>
            net (trace st) (prompt_request (self st) graph "mesh-agent"))
         queued_with r) /\
  (forall prompt options st,
     exists r st',
       generate_video net prompt options st = (ok r, st') /\
       submission_outcome (generate_video_workflow prompt options)
         (fun graph =>
            net (trace st)
              (prompt_request (self st) graph "mesh-agent-video"))
         queued_with r) /\
  (forall workflow options st,
     exists r st',
       queue_distributed_workflow net workflow options st = (ok r, st') /\
       submission_outcome (distributed_payload workflow options)
         (fun payload =>
            net (trace st) (distributed_request (self st) payload))
         distributed_queued_with r) /\
  (forall prompt options workflow st resp,
     generate_image_workflow prompt options = ok workflow ->
     net (trace st) (prompt_request (self st) workflow "mesh-agent")
       = ok resp ->
     status_code resp <> 200 ->
     fst (generate_image net prompt options st)
       = ok (error_result ("ComfyUI error: "
                           ++ str_of_int (status_code resp)))) /\
  (forall prompt options workflow st resp,
     generate_video_workflow prompt options = ok workflow ->
     net (trace st) (prompt_request (self st) workflow "mesh-agent-video")
       = ok resp ->
     status_code resp <> 200 ->
     fst (generate_video net prompt options st)
       = ok (error_result ("ComfyUI error: "
                           ++ str_of_int (status_code resp)))) /\
  (forall workflow options payload st resp,
     distributed_payload workflow options = ok payload ->
     net (trace st) (distributed_request (self st) payload) = ok resp ->
     status_code resp <> 200 ->
     fst (queue_distributed_workflow net workflow options st)
       = ok (error_result ("Distributed API error: "
                           ++ str_of_int (status_code resp)))) /\
  (forall message body r st st1,
     is_request rt message body ->
     process_inference_request rt net message st = (ok r, st1) ->
     let s := send_request rt (self st) (PyDict body) r (sender_of message) in
     handle_message rt net message st =
       (ok tt,
        log st1 [Http s; send_log rt net (trace st1) s (sender_of message)])).
Proof.
  split; [|split; [|split; [|split; [|split; [|split]]]]].
  - intros prompt options st. rewrite generate_image_run.
    destruct (generate_image_workflow prompt options) as [e|graph].
    + do 2 eexists. split; [reflexivity|]. split; [left; eauto|].
      intros body data [=].
    + cbv zeta. do 2 eexists. split; [reflexivity|]. split.
      * destruct (queued_result_cases
                    (net (trace st)
                       (prompt_request (self st) graph "mesh-agent")))
          as [[detail Hd]|(data & Ha & Hd)]; rewrite Hd.
        -- left. eauto.
        -- right. exists graph, data. auto.
      * intros body data [= <-] Ha.
        apply (backend_accepted_answer _ _ Ha).
  - intros prompt options st. rewrite generate_video_run.
    destruct (generate_video_workflow prompt options) as [e|graph].
    + do 2 eexists. split; [reflexivity|]. split; [left; eauto|].
      intros body data [=].
    + cbv zeta. do 2 eexists. split; [reflexivity|]. split.
      * destruct (queued_result_cases
                    (net (trace st)
                       (prompt_request (self st) graph "mesh-agent-video")))
          as [[detail Hd]|(data & Ha & Hd)]; rewrite Hd.
        -- left. eauto.
        -- right. exists graph, data. auto.
      * intros body data [= <-] Ha.
        apply (backend_accepted_answer _ _ Ha).
  - intros workflow options st. rewrite queue_distributed_workflow_run.
    destruct (distributed_payload workflow options) as [e|payload].
    + do 2 eexists. split; [reflexivity|]. split; [left; eauto|].
      intros body data [=].
    + cbv zeta. do 2 eexists. split; [reflexivity|]. split.
      * destruct (distributed_result_cases
                    (net (trace st) (distributed_request (self st) payload)))
          as [[detail Hd]|(data & Ha & Hd)]; rewrite Hd.
        -- left. eauto.
        -- right. exists payload, data. auto.
      * intros body data [= <-] Ha.
        apply (backend_accepted_answer _ _ Ha).
  - intros prompt options workflow st resp Hw Hn Hcode.
    rewrite generate_image_run, Hw. unfold ok in *.
    cbv beta iota zeta. rewrite Hn.
    apply Z.eqb_neq in Hcode. cbn. rewrite Hcode. reflexivity.
  - intros prompt options workflow st resp Hw Hn Hcode.
    rewrite generate_video_run, Hw. unfold ok in *.
    cbv beta iota zeta. rewrite Hn.
    apply Z.eqb_neq in Hcode. cbn. rewrite Hcode. reflexivity.
  - intros workflow options payload st resp Hw Hn Hcode.
    rewrite queue_distributed_workflow_run, Hw. unfold ok in *.
    cbv beta iota zeta. rewrite Hn.
    apply Z.eqb_neq in Hcode. cbn. rewrite Hcode. reflexivity.
  - intros message body r st st1. apply handle_request.
Qed.

End Results.

(** The invariant as worded fails on two results of [generate_image]:
    accepted with a body that has no [prompt_id], the result is [queued]
    with the handle [None]; refused with status 500, the result has an
    [error] entry and no [status] entry at all. *)
Lemma inference_result_counterexample :
  fst (generate_image
         (Demo.net Demo.registration (Demo.batch [])
            (Demo.reply 200 (PyDict [])))
         (PyDict [("positive", PyStr "a cat")]) (PyDict []) Demo.registered)
  = ok (PyDict [("status", PyStr "queued"); ("prompt_id", PyNone)]) /\
  ~ stated_invariant
      (PyDict [("status", PyStr "queued"); ("prompt_id", PyNone)]) /\
  fst (generate_image
         (Demo.net Demo.registration (Demo.batch [])
            (Demo.reply 500 PyNone))
         (PyDict [("positive", PyStr "a cat")]) (PyDict []) Demo.registered)
  = ok (PyDict [("error", PyStr "ComfyUI error: 500")]) /\
  ~ stated_invariant (PyDict [("error", PyStr "ComfyUI error: 500")]).
Proof.
  split; [reflexivity|]. split; [|split; [reflexivity|]].
  - intros (s & Hs & _ & Hh & _). injection Hs as <-.
    assert (H : has_handle
                  (PyDict [("status", PyStr "queued"); ("prompt_id", PyNone)])
                = true) by (apply Hh; discriminate).
    discriminate H.
  - intros (s & Hs & _). discriminate Hs.
Qed.

(** The backend accepts an image request as [job-1]: the result carries
    that handle.  It answers another with 500: the result is the error
    with that status, and it is sent to the peer that asked. *)
Lemma inference_results_have_two_shapes_witness :
  fst (generate_image
         (Demo.net Demo.registration (Demo.batch []) (Demo.job "job-1"))
         (PyDict [("positive", PyStr "a cat")]) (PyDict []) Demo.registered)
  = ok (PyDict [("status", PyStr "queued"); ("prompt_id", PyStr "job-1")]) /\
  fst (generate_image
         (Demo.net Demo.registration (Demo.batch []) (Demo.reply 500 PyNone))
         (PyDict [("positive", PyStr "a cat")]) (PyDict []) Demo.registered)
  = ok (error_result "ComfyUI error: 500") /\
  map (fun r => option_map (fun body => py_get body "recipient" PyNone)
                  (req_json r))
    (responses_sent
       (emitted
          (handle_message Demo.rt
             (Demo.net Demo.registration (Demo.batch [])
                (Demo.reply 500 PyNone))
             (Demo.message "peer-b" Demo.image_request))
          Demo.registered))
  = [Some (ok (PyStr "peer-b"))].
Proof.
  split; [|split].
  - destruct (proj1 (inference_results_have_two_shapes Demo.rt
                       (Demo.net Demo.registration (Demo.batch [])
                          (Demo.job "job-1")))
                (PyDict [("positive", PyStr "a cat")]) (PyDict [])
                Demo.registered) as (r & st' & Hr & _ & Hs).
    rewrite Hr. cbn [fst]. f_equal.
    eapply (Hs _ [("prompt_id", PyStr "job-1")]).
    + reflexivity.
    + eexists. split; [reflexivity|]. split; reflexivity.
  - apply (proj1 (proj2 (proj2 (proj2
             (inference_results_have_two_shapes Demo.rt
                (Demo.net Demo.registration (Demo.batch [])
                   (Demo.reply 500 PyNone))))))
             (PyDict [("positive", PyStr "a cat")]) (PyDict []) _
             Demo.registered
             {| status_code := 500; body_json := ok PyNone |}
             eq_refl eq_refl).
    cbn. lia.
  - pose proof (proj2 (proj2 (proj2 (proj2 (proj2 (proj2
                 (inference_results_have_two_shapes Demo.rt
                    (Demo.net Demo.registration (Demo.batch [])
                       (Demo.reply 500 PyNone))))))))
                 (Demo.message "peer-b" Demo.image_request)
                 [("type", PyStr "inference_request");
                  ("request_type", PyStr "image_generation");
                  ("prompt", PyDict [("positive", PyStr "a cat")])]
                 _ Demo.registered _ (conj eq_refl eq_refl) eq_refl) as H.
    unfold emitted. rewrite H. vm_compute. reflexivity.
Defined.

(** * The job graph builder *)

Lemma scalar_dict_get (d : list (string * pyval)) (k : string)
    (default : pyval) :
  scalars d = true -> scalar default = true ->
  scalar (dict_get d k default) = true.
Proof.
  unfold dict_get, scalars. intros Hd Hdef.
  induction d as [|[k' v] d IH]; cbn in *; [assumption|].
  apply andb_prop in Hd as [Hv Hd].
  destruct (String.eqb k k'); auto.
Qed.

Lemma scalar_not_link (v : pyval) (node : string) :
  scalar v = true -> links_to v node = false.
Proof. destruct v; cbn; try reflexivity; discriminate. Qed.

(** C4. Whatever the prompt and the options, the [clip] input of both
    text-conditioning nodes of the image graph, ["3"] and ["4"], is a link
    to node ["4"], itself a [CLIPTextEncode] node, and not to the
    checkpoint loader ["6"].  With scalar prompt texts and options, the
    nodes with an input linked to the checkpoint loader are the sampler
    ["5"] and the decoder ["8"], hence among sampler, latent, decode and
    save. *)
Theorem image_graph_clip_wiring (p o : list (string * pyval)) :
  exists graph,
    generate_image_workflow (PyDict p) (PyDict o) = ok graph /\
    node_input graph "3" "clip" = Some (link "4" 0) /\
    node_input graph "4" "clip" = Some (link "4" 0) /\
    node_input graph "3" "clip" <> Some (link "6" 0) /\
    node_input graph "4" "clip" <> Some (link "6" 0) /\
    node_class graph "4" = Some (PyStr "CLIPTextEncode") /\
    node_class graph "6" = Some (PyStr "CheckpointLoaderSimple") /\
    (scalars p = true -> scalars o = true ->
     referrers graph "6" = ["5"; "8"] /\
     incl (referrers graph "6") ["5"; "7"; "8"; "9"]).
Proof.
  eexists. split; [reflexivity|].
  repeat split; try discriminate.
  - cbn [referrers flat_map refers snd fst assoc String.eqb Ascii.eqb
         Bool.eqb existsb].
    repeat match goal with
           | |- context [links_to (dict_get ?d ?k ?v) ?n] =>
               rewrite (scalar_not_link (dict_get d k v) n)
                 by (apply scalar_dict_get; auto)
           end.
    reflexivity.
  - cbn [referrers flat_map refers snd fst assoc String.eqb Ascii.eqb
         Bool.eqb existsb].
    repeat match goal with
           | |- context [links_to (dict_get ?d ?k ?v) ?n] =>
               rewrite (scalar_not_link (dict_get d k v) n)
                 by (apply scalar_dict_get; auto)
           end.
    cbn. intros n [<-|[<-|[]]]; cbn; auto.
Qed.

(** A prompt with a positive text, no options. *)
Lemma image_graph_clip_wiring_witness :
  exists graph,
    generate_image_workflow (PyDict [("positive", PyStr "a cat")]) (PyDict [])
      = ok graph /\
    referrers graph "6" = ["5"; "8"].
Proof.
  destruct (image_graph_clip_wiring [("positive", PyStr "a cat")] [])
    as (graph & Hg & _ & _ & _ & _ & _ & _ & Hr).
  exists graph. split; [exact Hg|].
  exact (proj1 (Hr eq_refl eq_refl)).
Defined.

Lemma emitted_generate_image (net : network) (prompt options : pyval)
    (st : state) :
  emitted (generate_image net prompt options) st =
    match generate_image_workflow prompt options with
    | inl _ => []
    | inr graph => [Http (prompt_request (self st) graph "mesh-agent")]
    end.
Proof.
  apply emitted_log. rewrite generate_image_run.
  destruct (generate_image_workflow prompt options); cbn [snd].
  - symmetry. apply log_nil.
  - reflexivity.
Qed.

Lemma emitted_generate_video (net : network) (prompt options : pyval)
    (st : state) :
  emitted (generate_video net prompt options) st =
    match generate_video_workflow prompt options with
    | inl _ => []
    | inr graph => [Http (prompt_request (self st) graph "mesh-agent-video")]
    end.
Proof.
  apply emitted_log. rewrite generate_video_run.
  destruct (generate_video_workflow prompt options); cbn [snd].
  - symmetry. apply log_nil.
  - reflexivity.
Qed.

(** C10. The job graph that [generate_image] (and [generate_video])
    submits is a function of the prompt and the options alone: two calls
    with the same arguments, in any two states of the agent and against
    any two networks, submit the same graph, the one the builder gives. *)
Theorem job_graph_is_deterministic (net1 net2 : network) (st1 st2 : state)
    (prompt options : pyval) :
  let built (w : result pyval) :=
    match w with inr graph => [graph] | inl _ => [] end in
  posted_graphs (http_requests (emitted (generate_image net1 prompt options) st1))
    = built (generate_image_workflow prompt options) /\
  posted_graphs (http_requests (emitted (generate_image net2 prompt options) st2))
    = posted_graphs
        (http_requests (emitted (generate_image net1 prompt options) st1)) /\
  posted_graphs (http_requests (emitted (generate_video net1 prompt options) st1))
    = built (generate_video_workflow prompt options) /\
  posted_graphs (http_requests (emitted (generate_video net2 prompt options) st2))
    = posted_graphs
        (http_requests (emitted (generate_video net1 prompt options) st1)).
Proof.
  cbv zeta. rewrite !emitted_generate_image, !emitted_generate_video.
  destruct (generate_image_workflow prompt options);
    destruct (generate_video_workflow prompt options);
    repeat split; reflexivity.
Qed.

(** * Requests by kind *)

Section Requests.

Variable rt : runtime.
Variable net : network.

(** C5. An image request with an empty options mapping (or none): the
    graph has seed 42, 20 steps, cfg 8, sampler [euler], width and height
    1024 and the checkpoint [sd_xl_base_1.0.safetensors]; it is posted to
    [/api/prompt] of the backend; when the answer has status 200 and a
    JSON object as body, the result is [queued] with the [prompt_id] of
    that body. *)
Theorem image_request_with_defaults (message : pyval)
    (body p : list (string * pyval)) (st : state) :
  is_request rt message body ->
  dict_get body "request_type" PyNone = PyStr "image_generation" ->
  dict_get body "prompt" PyNone = PyDict p ->
  dict_get body "options" (PyDict []) = PyDict [] ->
  exists graph,
    generate_image_workflow (PyDict p) (PyDict []) = ok graph /\
    node_input graph "5" "seed" = Some (PyInt 42) /\
    node_input graph "5" "steps" = Some (PyInt 20) /\
    node_input graph "5" "cfg" = Some (PyInt 8) /\
    node_input graph "5" "sampler_name" = Some (PyStr "euler") /\
    node_input graph "7" "width" = Some (PyInt 1024) /\
    node_input graph "7" "height" = Some (PyInt 1024) /\
    node_input graph "6" "ckpt_name"
      = Some (PyStr "sd_xl_base_1.0.safetensors") /\
    let st1 := log st [received_log rt (PyStr "image_generation")
                         (sender_of message)] in
    let r := prompt_request (self st) graph "mesh-agent" in
    snd (process_inference_request rt net message st) = log st1 [Http r] /\
    req_method r = POST /\
    req_url r = comfyui_url (self st) ++ "/api/prompt" /\
    posted_graphs [r] = [graph] /\
    (forall resp data handle,
       net (trace st1) r = ok resp ->
       status_code resp = 200 ->
       body_json resp = ok (PyDict data) ->
       assoc "prompt_id" data = Some handle ->
       let result := PyDict [("status", PyStr "queued");
                             ("prompt_id", handle)] in
       fst (process_inference_request rt net message st) = ok result /\
       status_of result = Some queued /\
       job_handle result = Some handle).
Proof.
  intros Hq Hk Hp Ho.
  eexists. split; [reflexivity|].
  do 7 (split; [reflexivity|]).
  cbv zeta.
  rewrite (process_request rt net _ _ st Hq), Hk, Hp, Ho.
  unfold dispatch. cbn [eq_str String.eqb Ascii.eqb Bool.eqb].
  rewrite generate_image_run.
  cbv beta iota zeta delta [generate_image_workflow py_get ok].
  cbn [snd fst].
  do 4 (split; [reflexivity|]).
  intros resp data handle Hn Hcode Hb Hh.
  unfold ok in *. cbn [log self trace app] in Hn |- *.
  unfold queued_result. rewrite Hn, Hcode, Hb. cbn [Z.eqb Pos.eqb].
  cbv beta iota delta [py_get dict_get ok]. rewrite Hh.
  repeat split.
Qed.

(** C6. A distributed request whose options are a mapping: the prompt is
    the [prompt] entry of the posted body as it came, the body carries
    the [worker_ids] of the options ([[]] by default) and their
    [delegate_master] ([False] by default), it is posted to [/queue] of
    the distributed extension; when the answer has status 200 and a JSON
    object as body, the result is [distributed_queued] with the
    [prompt_id] and the [worker_count] (1 by default) of that body. *)
Theorem distributed_request_passes_through (message : pyval)
    (body o : list (string * pyval)) (st : state) :
  is_request rt message body ->
  dict_get body "request_type" PyNone = PyStr "distributed_inference" ->
  dict_get body "options" (PyDict []) = PyDict o ->
  let prompt := dict_get body "prompt" PyNone in
  let payload :=
    PyDict [("prompt", prompt);
            ("client_id", PyStr "mesh-distributed");
            ("delegate_master", dict_get o "delegate_master" (PyBool false));
            ("enabled_worker_ids", dict_get o "worker_ids" (PyList []))] in
  let st1 := log st [received_log rt (PyStr "distributed_inference")
                       (sender_of message)] in
  let r := distributed_request (self st) payload in
  snd (process_inference_request rt net message st) = log st1 [Http r] /\
  req_method r = POST /\
  req_url r = comfyui_distributed_url (self st) ++ "/queue" /\
  posted_graphs [r] = [prompt] /\
  (forall ids, assoc "worker_ids" o = Some ids ->
     dict_get o "worker_ids" (PyList []) = ids) /\
  (assoc "worker_ids" o = None ->
     dict_get o "worker_ids" (PyList []) = PyList []) /\
  (assoc "delegate_master" o = None ->
     dict_get o "delegate_master" (PyBool false) = PyBool false) /\
  (forall resp data,
     net (trace st1) r = ok resp ->
     status_code resp = 200 ->
     body_json resp = ok (PyDict data) ->
     let result :=
       PyDict [("status", PyStr "distributed_queued");
               ("prompt_id", dict_get data "prompt_id" PyNone);
               ("worker_count", dict_get data "worker_count" (PyInt 1))] in
     fst (process_inference_request rt net message st) = ok result /\
     status_of result = Some distributed_queued /\
     job_handle result = Some (dict_get data "prompt_id" PyNone)).
Proof.
  intros Hq Hk Ho. cbv zeta.
  rewrite (process_request rt net _ _ st Hq), Hk, Ho.
  unfold dispatch. cbn [eq_str String.eqb Ascii.eqb Bool.eqb].
  rewrite queue_distributed_workflow_run.
  cbv beta iota zeta delta [distributed_payload py_get ok].
  cbn [snd fst].
  do 4 (split; [reflexivity|]).
  split; [|split; [|split]].
  - intros ids H. unfold dict_get. rewrite H. reflexivity.
  - intros H. unfold dict_get. rewrite H. reflexivity.
  - intros H. unfold dict_get. rewrite H. reflexivity.
  - intros resp data Hn Hcode Hb.
    unfold ok in *. cbn [log self trace app] in Hn |- *.
    unfold distributed_result. rewrite Hn, Hcode, Hb. cbn [Z.eqb Pos.eqb].
    repeat split.
Qed.

End Requests.

(** An image request without options, accepted by the backend as
    [job-1]. *)
Lemma image_request_with_defaults_witness :
  fst (process_inference_request Demo.rt
         (Demo.net Demo.registration (Demo.batch []) (Demo.job "job-1"))
         (Demo.message "peer-b" Demo.image_request) Demo.registered)
  = ok (PyDict [("status", PyStr "queued"); ("prompt_id", PyStr "job-1")]).
Proof.
  destruct (image_request_with_defaults Demo.rt
              (Demo.net Demo.registration (Demo.batch []) (Demo.job "job-1"))
              (Demo.message "peer-b" Demo.image_request)
              [("type", PyStr "inference_request");
               ("request_type", PyStr "image_generation");
               ("prompt", PyDict [("positive", PyStr "a cat")])]
              [("positive", PyStr "a cat")]
              Demo.registered
              (conj eq_refl eq_refl) eq_refl eq_refl eq_refl)
    as (graph & _ & _ & _ & _ & _ & _ & _ & _ & H).
  cbv zeta in H. destruct H as (_ & _ & _ & _ & H).
  exact (proj1 (H {| status_code := 200;
                     body_json := ok (PyDict [("prompt_id", PyStr "job-1")]) |}
                  [("prompt_id", PyStr "job-1")] (PyStr "job-1")
                  eq_refl eq_refl eq_refl eq_refl)).
Defined.

(** A distributed request for the workers [w1] and [w2], accepted by the
    backend as [job-9] on two workers. *)
Lemma distributed_request_passes_through_witness :
  http_requests
    (emitted
       (process_inference_request Demo.rt
          (Demo.net Demo.registration (Demo.batch [])
             (Demo.reply 200 (PyDict [("prompt_id", PyStr "job-9");
                                      ("worker_count", PyInt 2)])))
          (Demo.message "peer-c" Demo.distributed_request))
       Demo.registered)
  = [distributed_request (self Demo.registered)
       (PyDict [("prompt",
                 PyDict [("1", PyDict [("class_type", PyStr "LoadImage")])]);
                ("client_id", PyStr "mesh-distributed");
                ("delegate_master", PyBool false);
                ("enabled_worker_ids", PyList [PyStr "w1"; PyStr "w2"])])] /\
  fst (process_inference_request Demo.rt
         (Demo.net Demo.registration (Demo.batch [])
            (Demo.reply 200 (PyDict [("prompt_id", PyStr "job-9");
                                     ("worker_count", PyInt 2)])))
         (Demo.message "peer-c" Demo.distributed_request) Demo.registered)
  = ok (PyDict [("status", PyStr "distributed_queued");
                ("prompt_id", PyStr "job-9");
                ("worker_count", PyInt 2)]).
Proof.
  pose proof (distributed_request_passes_through Demo.rt
                (Demo.net Demo.registration (Demo.batch [])
                   (Demo.reply 200 (PyDict [("prompt_id", PyStr "job-9");
                                            ("worker_count", PyInt 2)])))
                (Demo.message "peer-c" Demo.distributed_request)
                [("type", PyStr "inference_request");
                 ("request_type", PyStr "distributed_inference");
                 ("prompt",
                  PyDict [("1", PyDict [("class_type", PyStr "LoadImage")])]);
                 ("options",
                  PyDict [("worker_ids", PyList [PyStr "w1"; PyStr "w2"])])]
                [("worker_ids", PyList [PyStr "w1"; PyStr "w2"])]
                Demo.registered
                (conj eq_refl eq_refl) eq_refl eq_refl) as H.
  cbv zeta in H. destruct H as (Hs & _ & _ & _ & _ & _ & _ & H).
  split.
  - unfold emitted. rewrite Hs. reflexivity.
  - exact (proj1 (H {| status_code := 200;
                       body_json := ok (PyDict [("prompt_id", PyStr "job-9");
                                                ("worker_count", PyInt 2)]) |}
                    [("prompt_id", PyStr "job-9"); ("worker_count", PyInt 2)]
                    eq_refl eq_refl eq_refl)).
Defined.

(** The image request of [Demo.mixed_batch], polled alone, is answered:
    it is the message before it that costs it its response. *)
Example image_request_alone_is_answered :
  List.length
    (responses_sent
       (emitted
          (listen_cycle Demo.rt
             (Demo.net Demo.registration
                (Demo.batch [Demo.message "peer-b" Demo.image_request])
                (Demo.job "job-1")))
          Demo.registered)) = 1%nat.
Proof. vm_compute. reflexivity. Qed.

(** In [Demo.mixed_batch] no response is sent. *)
Example mixed_batch_is_not_answered :
  responses_sent
    (emitted
       (listen_cycle Demo.rt
          (Demo.net Demo.registration (Demo.batch Demo.mixed_batch)
             (Demo.job "job-1")))
       Demo.registered) = [].
Proof. vm_compute. reflexivity. Qed.

(** * Registration and start-up *)

Lemma emitted_trace {A} (m : M A) (st : state) (evs : list event) :
  trace (snd (m st)) = (trace st ++ evs)%list -> emitted m st = evs.
Proof.
  unfold emitted. intros ->.
  rewrite skipn_app, skipn_all, Nat.sub_diag. reflexivity.
Qed.

Section StartUp.

Variable rt : runtime.
Variable net : network.

(** What [register_with_mesh] does, by the answer to its request. *)
Lemma register_with_mesh_run (st : state) :
  let r := register_request (self st) in
  let failed (line : string) :=
    (ok false, log st [registering_log (self st); Http r; Print line]) in
  register_with_mesh rt net st =
    match net (trace (log st [registering_log (self st)])) r with
    | inl e => failed ("Error registering with mesh: " ++ exn_msg e)
    | inr resp =>
        if status_code resp =? 200 then
          match body_json resp with
          | inl e => failed ("Error registering with mesh: " ++ exn_msg e)
          | inr data =>
              match py_get data "agentId" PyNone with
              | inl e => failed ("Error registering with mesh: " ++ exn_msg e)
              | inr id =>
                  (ok true,
                   {| self := with_mesh_agent_id id (self st);
                      trace := trace st ++ [registering_log (self st); Http r;
                                            registered_log rt id] |})
              end
          end
        else failed ("Registration failed: " ++ str_of_int (status_code resp))
    end.
Proof.
  on_state st. unfold register_with_mesh, register_request, registering_log,
    registered_log. run_m.
  destruct (net _ _) as [e|resp]; cbv beta iota.
  { rewrite <- !app_assoc. reflexivity. }
  destruct (status_code resp =? 200).
  2:{ rewrite <- !app_assoc. reflexivity. }
  destruct (body_json resp) as [e|data].
  { rewrite <- !app_assoc. reflexivity. }
  destruct (py_get data "agentId" PyNone) as [e|id];
    rewrite <- !app_assoc; reflexivity.
Qed.

(** X1. [register_with_mesh] never raises and makes exactly one request.
    It returns [True] exactly when the answer has status 200 and a JSON
    object as body; the assigned id is then the [agentId] of that body,
    [None] when the body has none, and nothing else of the agent changes.
    When it returns [False] the agent is as before. *)
Theorem registration_outcome (st : state) :
  let r := register_request (self st) in
  let answer := net (trace (log st [registering_log (self st)])) r in
  exists b st',
    register_with_mesh rt net st = (ok b, st') /\
    http_requests (emitted (register_with_mesh rt net) st) = [r] /\
    (b = true <-> exists data, registration_accepted answer data) /\
    (b = false -> self st' = self st) /\
    (forall data,
       registration_accepted answer data ->
       self st'
       = with_mesh_agent_id (dict_get data "agentId" PyNone) (self st)).
Proof.
  intros r answer.
  pose proof (register_with_mesh_run st) as Hrun. cbv zeta in Hrun.
  fold r in Hrun. fold answer in Hrun.
  assert (Hfail : forall line,
    register_with_mesh rt net st
      = (ok false, log st [registering_log (self st); Http r; Print line]) ->
    (forall data, ~ registration_accepted answer data) ->
    exists b st',
      register_with_mesh rt net st = (ok b, st') /\
      http_requests (emitted (register_with_mesh rt net) st) = [r] /\
      (b = true <-> exists data, registration_accepted answer data) /\
      (b = false -> self st' = self st) /\
      (forall data,
         registration_accepted answer data ->
         self st'
         = with_mesh_agent_id (dict_get data "agentId" PyNone) (self st))).
  { intros line Hreg Hno. do 2 eexists. split; [exact Hreg|].
    split; [|split; [|split]].
    - rewrite (emitted_log _ st _ (f_equal snd Hreg)). reflexivity.
    - split; [discriminate|]. intros [data Hd]. elim (Hno data Hd).
    - reflexivity.
    - intros data Hd. elim (Hno data Hd). }
  destruct answer as [e|resp] eqn:Ha.
  { eapply Hfail; [exact Hrun|]. intros data (resp & [=] & _). }
  destruct (status_code resp =? 200) eqn:Hcode.
  2:{ eapply Hfail; [exact Hrun|]. intros data (resp' & [= <-] & Hc & _).
      rewrite Hc in Hcode. discriminate. }
  destruct (body_json resp) as [e|data] eqn:Hb.
  { eapply Hfail; [exact Hrun|]. intros data (resp' & [= <-] & _ & Hb').
    rewrite Hb in Hb'. discriminate. }
  destruct data as [| | | | | |data];
    try (eapply Hfail; [exact Hrun|];
         intros data' (resp' & [= <-] & _ & Hb');
         rewrite Hb in Hb'; discriminate).
  cbv beta iota delta [py_get ok] in Hrun.
  do 2 eexists. split; [exact Hrun|]. split; [|split; [|split]].
  - erewrite emitted_trace; [|rewrite Hrun; reflexivity]. reflexivity.
  - split; [|reflexivity]. intros _. exists data. exists resp.
    apply Z.eqb_eq in Hcode. split; [reflexivity|]. split; assumption.
  - discriminate.
  - intros data' (resp' & [= <-] & _ & Hb'). rewrite Hb in Hb'.
    injection Hb' as <-. reflexivity.
Qed.

End StartUp.

(** A registration accepted as [agent-7], on a fresh agent. *)
Lemma registration_outcome_witness :
  exists st',
    register_with_mesh Demo.rt
      (Demo.net Demo.registration (Demo.batch []) (Demo.job "job-1"))
      Demo.fresh = (ok true, st') /\
    mesh_agent_id (self st') = PyStr "agent-7".
Proof.
  destruct (registration_outcome Demo.rt
              (Demo.net Demo.registration (Demo.batch []) (Demo.job "job-1"))
              Demo.fresh) as (b & st' & Hr & _ & Hb & _ & Hid).
  assert (Ha : registration_accepted
                 (Demo.net Demo.registration (Demo.batch [])
                    (Demo.job "job-1")
                    (trace (log Demo.fresh
                              [registering_log (self Demo.fresh)]))
                    (register_request (self Demo.fresh)))
                 [("agentId", PyStr "agent-7")]).
  { eexists. split; [reflexivity|]. split; reflexivity. }
  exists st'. split.
  - rewrite Hr. f_equal. f_equal. apply Hb. eexists. exact Ha.
  - rewrite (Hid _ Ha). reflexivity.
Defined.

Lemma sleeps_app (evs1 evs2 : list event) :
  sleeps (evs1 ++ evs2) = (sleeps evs1 ++ sleeps evs2)%list.
Proof.
  induction evs1 as [|[line|r|n] evs1 IH]; cbn; [reflexivity| | |];
    now rewrite ?IH.
Qed.

Lemma http_requests_repeat_sleep (n : Z) (k : nat) :
  http_requests (repeat (Sleep n) k) = [].
Proof. induction k; cbn; auto. Qed.

Lemma sleeps_repeat_sleep (n : Z) (k : nat) :
  sleeps (repeat (Sleep n) k) = repeat n k.
Proof. induction k; cbn; congruence. Qed.

Section Announcement.

Variable rt : runtime.
Variable net : network.

Lemma broadcast_availability_run (st : state) :
  let b := broadcast_request rt (self st) in
  broadcast_availability rt net st
  = (ok tt, log st [Http b; broadcast_log (net (trace st) b)]).
Proof.
  on_state st. unfold broadcast_availability, broadcast_request,
    broadcast_log. run_m.
  destruct (net _ _) as [e|resp]; cbv beta iota.
  - rewrite <- app_assoc. reflexivity.
  - destruct (status_code resp =? 200); rewrite <- app_assoc; reflexivity.
Qed.

(** X2. [broadcast_availability] is best effort: whatever the mesh
    answers (an exception, any status), it returns normally, leaves the
    agent as it is, makes the one announcement and prints one line, which
    reports success only for status 200. *)
Theorem announcement_is_best_effort (st : state) :
  let b := broadcast_request rt (self st) in
  exists line,
    broadcast_availability rt net st = (ok tt, log st [Http b; Print line]) /\
    (line = "Broadcast availability to mesh" <->
     exists resp, net (trace st) b = ok resp /\ status_code resp = 200).
Proof.
  intros b. rewrite broadcast_availability_run. fold b.
  destruct (net (trace st) b) as [e|resp] eqn:Ha; cbn [broadcast_log].
  - eexists. split; [reflexivity|]. split.
    + discriminate.
    + intros (resp & [=] & _).
  - destruct (status_code resp =? 200) eqn:Hc.
    + eexists. split; [reflexivity|]. split; [|reflexivity].
      intros _. exists resp. apply Z.eqb_eq in Hc. auto.
    + eexists. split; [reflexivity|]. split.
      * discriminate.
      * intros (resp' & [= <-] & Hc'). rewrite Hc' in Hc. discriminate.
Qed.

Lemma listen_for_requests_run (cycles : nat) (st : state) :
  listen_for_requests rt net cycles st
  = listen_loop rt net cycles
      {| self := with_running true (self st);
         trace := trace st ++ [listening_log (self st)] |}.
Proof. on_state st. reflexivity. Qed.

(** A cycle of an agent without an assigned id: no request, the regular
    sleep. *)
Lemma listen_cycle_unregistered (st : state) :
  truthy (mesh_agent_id (self st)) = false ->
  listen_cycle rt net st = (ok tt, log st [Sleep 10]).
Proof.
  intros Hid. unfold listen_cycle, try_except, bind at 1.
  rewrite (check_mesh_messages_unregistered rt net st Hid).
  destruct st as [a tr]. reflexivity.
Qed.

Lemma listen_loop_unregistered (cycles : nat) (st : state) :
  truthy (mesh_agent_id (self st)) = false ->
  running (self st) = true ->
  listen_loop rt net cycles st = (ok tt, log st (repeat (Sleep 10) cycles)).
Proof.
  revert st. induction cycles as [|n IH]; intros st Hid Hrun; cbn [listen_loop repeat].
  - unfold ret. rewrite log_nil. reflexivity.
  - unfold bind at 1, get_self. cbv beta iota delta [ok]. rewrite Hrun.
    unfold bind. rewrite (listen_cycle_unregistered st Hid).
    cbv beta iota delta [ok].
    rewrite (IH (log st [Sleep 10]) Hid Hrun), log_log. reflexivity.
Qed.

Lemma start_run (cycles : nat) (st : state) (data : list (string * pyval)) :
  let r := register_request (self st) in
  registration_accepted
    (net (trace (log st [registering_log (self st)])) r) data ->
  let id := dict_get data "agentId" PyNone in
  let a1 := with_mesh_agent_id id (self st) in
  let tr1 := trace (log st [registering_log (self st); Http r;
                            registered_log rt id]) in
  let b := broadcast_request rt a1 in
  start rt net cycles st
  = listen_loop rt net cycles
      {| self := with_running true a1;
         trace := tr1 ++ [Http b; broadcast_log (net tr1 b);
                          listening_log a1] |}.
Proof.
  intros r (resp & Ha & Hc & Hb). cbv zeta.
  unfold start, bind at 1.
  pose proof (register_with_mesh_run rt net st) as Hrun. cbv zeta in Hrun.
  fold r in Hrun. unfold ok in *. rewrite Ha, Hc, Hb in Hrun.
  cbv beta iota delta [Z.eqb Pos.eqb py_get ok] in Hrun.
  rewrite Hrun. cbv beta iota.
  unfold bind at 1. rewrite broadcast_availability_run.
  cbv beta iota zeta delta [ok]. rewrite listen_for_requests_run.
  destruct st as [a tr]. cbn [self trace log].
  rewrite <- !app_assoc. reflexivity.
Qed.

(** X3. After an accepted registration, [start] announces once and
    enters the loop with [running] set and the assigned id, whatever the
    outcome of the announcement. *)
Theorem start_enters_the_loop (cycles : nat) (st : state)
    (data : list (string * pyval)) :
  let r := register_request (self st) in
  registration_accepted
    (net (trace (log st [registering_log (self st)])) r) data ->
  let id := dict_get data "agentId" PyNone in
  let a1 := with_mesh_agent_id id (self st) in
  let tr1 := trace (log st [registering_log (self st); Http r;
                            registered_log rt id]) in
  let b := broadcast_request rt a1 in
  start rt net cycles st
  = listen_loop rt net cycles
      {| self := with_running true a1;
         trace := tr1 ++ [Http b; broadcast_log (net tr1 b);
                          listening_log a1] |}.
Proof. exact (start_run cycles st data). Qed.

(** X4. When the registration is accepted but the body assigns no usable
    id ([agentId] missing, [null], empty or zero), [start] still
    announces and loops, but never polls: its only requests are the
    registration and the announcement, and every cycle is a sleep of 10
    seconds. *)
Theorem agent_without_id_never_polls (cycles : nat) (st : state)
    (data : list (string * pyval)) :
  let r := register_request (self st) in
  registration_accepted
    (net (trace (log st [registering_log (self st)])) r) data ->
  truthy (dict_get data "agentId" PyNone) = false ->
  fst (start rt net cycles st) = ok tt /\
  http_requests (emitted (start rt net cycles) st)
  = [r; broadcast_request rt (self st)] /\
  sleeps (emitted (start rt net cycles) st) = repeat 10 cycles.
Proof.
  intros r Ha Hid.
  pose proof (start_run cycles st data Ha) as Hs. cbv zeta in Hs.
  rewrite listen_loop_unregistered in Hs by (cbn; auto).
  assert (He : emitted (start rt net cycles) st
               = ([registering_log (self st); Http r;
                  registered_log rt (dict_get data "agentId" PyNone);
                  Http (broadcast_request rt (self st));
                  broadcast_log
                    (net (trace (log st [registering_log (self st); Http r;
                                         registered_log rt
                                           (dict_get data "agentId" PyNone)]))
                       (broadcast_request rt (self st)));
                  listening_log (self st)]
                 ++ repeat (Sleep 10) cycles)%list).
  { apply emitted_trace. rewrite Hs. destruct st as [a tr].
    cbn [snd log self trace]. rewrite <- !app_assoc. reflexivity. }
  rewrite He, Hs. split; [reflexivity|].
  unfold registering_log, registered_log, listening_log, broadcast_log.
  rewrite http_requests_app, sleeps_app, http_requests_repeat_sleep,
    sleeps_repeat_sleep.
  destruct (net _ (broadcast_request rt (self st))) as [e|resp];
    [|destruct (status_code resp =? 200)]; split; reflexivity.
Qed.

End Announcement.

(** The announcement of the registered agent, refused with status 503. *)
Lemma announcement_is_best_effort_witness :
  broadcast_availability Demo.rt
    (fun _ _ => Demo.reply 503 PyNone) Demo.registered
  = (ok tt,
     log Demo.registered
       [Http (broadcast_request Demo.rt (self Demo.registered));
        Print "Broadcast failed: 503"]).
Proof.
  destruct (announcement_is_best_effort Demo.rt
              (fun _ _ => Demo.reply 503 PyNone) Demo.registered)
    as (line & Hb & _).
  rewrite Hb. vm_compute in Hb. injection Hb as <-. reflexivity.
Defined.

(** A fresh agent, registered as [agent-7], observed for no cycle. *)
Lemma start_enters_the_loop_witness :
  exists st',
    start Demo.rt
      (Demo.net Demo.registration (Demo.batch []) (Demo.job "job-1"))
      0 Demo.fresh = (ok tt, st') /\
    running (self st') = true /\
    mesh_agent_id (self st') = PyStr "agent-7".
Proof.
  eexists.
  rewrite (start_enters_the_loop Demo.rt
             (Demo.net Demo.registration (Demo.batch []) (Demo.job "job-1"))
             0 Demo.fresh [("agentId", PyStr "agent-7")]).
  - split; [reflexivity|]. split; reflexivity.
  - eexists. split; [reflexivity|]. split; reflexivity.
Defined.

(** A registration answered 200 with an empty object, three cycles. *)
Lemma agent_without_id_never_polls_witness :
  sleeps
    (emitted
       (start Demo.rt
          (Demo.net (Demo.reply 200 (PyDict [])) (Demo.batch [])
             (Demo.job "job-1"))
          3)
       Demo.fresh) = [10; 10; 10].
Proof.
  apply (agent_without_id_never_polls Demo.rt
           (Demo.net (Demo.reply 200 (PyDict [])) (Demo.batch [])
              (Demo.job "job-1"))
           3 Demo.fresh []).
  - eexists. split; [reflexivity|]. split; reflexivity.
  - reflexivity.
Defined.

(** * What the agent emits *)

Lemma emits_ret {A} (a : agent) (P : event -> Prop) (x : A) :
  emits_at a P (ret x).
Proof. intros st _. exists []. cbn. rewrite log_nil. auto. Qed.

Lemma emits_lift {A} (a : agent) (P : event -> Prop) (r : result A) :
  emits_at a P (lift r).
Proof. intros st _. exists []. cbn. rewrite log_nil. auto. Qed.

Lemma emits_emit (a : agent) (P : event -> Prop) (e : event) :
  P e -> emits_at a P (emit e).
Proof. intros He st _. exists [e]. split; [reflexivity | auto]. Qed.

Lemma emits_http (a : agent) (P : event -> Prop) (net : network)
    (r : request) :
  P (Http r) -> emits_at a P (http net r).
Proof. intros He st _. exists [Http r]. split; [reflexivity | auto]. Qed.

Lemma emits_bind {A B} (a : agent) (P : event -> Prop) (m : M A)
    (k : A -> M B) :
  emits_at a P m -> (forall x, emits_at a P (k x)) -> emits_at a P (bind m k).
Proof.
  intros Hm Hk st Ha. unfold bind.
  destruct (Hm st Ha) as (evs1 & H1 & P1).
  destruct (m st) as [[e|x] st1]; cbn in H1; subst st1.
  - exists evs1. auto.
  - destruct (Hk x (log st evs1) Ha) as (evs2 & H2 & P2).
    exists (evs1 ++ evs2)%list. rewrite H2, log_log.
    split; [reflexivity | apply Forall_app; auto].
Qed.

(** [a <- get_self ;; k a]: the agent read is the one that runs. *)
Lemma emits_get_self {B} (a : agent) (P : event -> Prop) (k : agent -> M B) :
  emits_at a P (k a) -> emits_at a P (bind get_self k).
Proof.
  intros Hk st Ha. unfold bind, get_self. cbv beta iota delta [ok].
  rewrite Ha. apply Hk, Ha.
Qed.

Lemma emits_try {A} (a : agent) (P : event -> Prop) (m : M A)
    (h : exn -> M A) :
  emits_at a P m -> (forall e, emits_at a P (h e)) ->
  emits_at a P (try_except m h).
Proof.
  intros Hm Hh st Ha. unfold try_except.
  destruct (Hm st Ha) as (evs1 & H1 & P1).
  destruct (m st) as [[e|x] st1]; cbn in H1; subst st1.
  - destruct (Hh e (log st evs1) Ha) as (evs2 & H2 & P2).
    exists (evs1 ++ evs2)%list. rewrite H2, log_log.
    split; [reflexivity | apply Forall_app; auto].
  - exists evs1. auto.
Qed.

Lemma emits_for_each (a : agent) (P : event -> Prop)
    (body : pyval -> M unit) (items : list pyval) :
  (forall msg, emits_at a P (body msg)) -> emits_at a P (for_each body items).
Proof.
  intros Hb. induction items as [|msg rest IH]; cbn.
  - apply emits_ret.
  - apply emits_bind; auto.
Qed.

(** Reduces [emits_at] of a computation built from the above to the
    conditions on its events. *)
Ltac emits :=
  repeat first
    [ apply emits_ret | apply emits_lift
    | apply emits_get_self
    | apply emits_bind; [|intro]
    | apply emits_try; [|intro]
    | apply emits_emit | apply emits_http
    | match goal with
      | |- emits_at _ _ (if ?b then _ else _) => destruct b
      | |- emits_at _ _ (let _ := _ in _) => cbv zeta
      end ].

Lemma prefix_append (s t : string) : String.prefix s (s ++ t) = true.
Proof.
  induction s as [|c s IH]; cbn.
  - destruct t; reflexivity.
  - destruct (ascii_dec c c); [exact IH | congruence].
Qed.

(** Closes the conditions [emits] leaves for [quiet]. *)
Ltac quiet_event :=
  match goal with
  | |- quiet _ (Print _) => split; exact I
  | |- quiet _ (Http _) =>
      split; [|exact I]; cbn [allowed]; unfold request_allowed;
      cbn [req_timeout req_url req_headers mesh_headers];
      split;
      [ auto
      | first
          [ left; split;
            [apply prefix_append | unfold mesh_headers; cbn [In]; auto]
          | right; split; [reflexivity | auto] ] ]
  end.

Section Emissions.

Variable rt : runtime.
Variable net : network.

Lemma emits_check (a : agent) :
  emits_at a (quiet a) (check_mesh_messages rt net).
Proof.
  unfold check_mesh_messages, requests_get. emits; quiet_event.
Qed.

Lemma emits_process (a : agent) (message : pyval) :
  emits_at a (quiet a) (process_inference_request rt net message).
Proof.
  unfold process_inference_request, generate_image, generate_video,
    queue_distributed_workflow, requests_post, print.
  emits; quiet_event.
Qed.

Lemma emits_send (a : agent) (message response : pyval) :
  emits_at a (quiet a) (send_response rt net message response).
Proof.
  unfold send_response, requests_post, print. emits; quiet_event.
Qed.

Lemma emits_handle (a : agent) (message : pyval) :
  emits_at a (quiet a) (handle_message rt net message).
Proof.
  unfold handle_message. apply emits_bind.
  - apply emits_process.
  - intros r. destruct (truthy r).
    + apply emits_send.
    + apply emits_ret.
Qed.

Lemma quiet_sleeps (a : agent) (evs : list event) :
  Forall (quiet a) evs -> sleeps evs = [].
Proof.
  induction 1 as [|[line|r|n] evs [_ Hn] _ IH]; cbn; auto. elim Hn.
Qed.

Lemma quiet_allowed (a : agent) (evs : list event) :
  Forall (quiet a) evs -> Forall (allowed a) evs.
Proof. apply Forall_impl. intros e [H _]. exact H. Qed.

(** A cycle, whatever happens in it: events of message handling, then
    one sleep, of 10 seconds or of 30. *)
Lemma listen_cycle_shape (st : state) :
  exists evs s,
    listen_cycle rt net st = (ok tt, log st (evs ++ [Sleep s])) /\
    Forall (quiet (self st)) evs /\
    (s = 10 \/ s = 30).
Proof.
  unfold listen_cycle, try_except, bind at 1.
  destruct (emits_check (self st) st eq_refl) as (evs1 & H1 & P1).
  destruct (check_mesh_messages rt net st) as [[e|messages] st1];
    cbn [snd] in H1; subst st1.
  { exists (evs1 ++ [Print ("Error in listen loop: " ++ exn_msg e)])%list, 30.
    split; [|split; [|auto]].
    - destruct st as [a tr]. unfold print, sleep. run_m.
      rewrite <- !app_assoc. reflexivity.
    - apply Forall_app. split; [exact P1|]. repeat constructor. }
  unfold bind at 1, lift.
  destruct (py_iter messages) as [e|items].
  { exists (evs1 ++ [Print ("Error in listen loop: " ++ exn_msg e)])%list, 30.
    split; [|split; [|auto]].
    - destruct st as [a tr]. unfold print, sleep. run_m.
      rewrite <- !app_assoc. reflexivity.
    - apply Forall_app. split; [exact P1|]. repeat constructor. }
  unfold bind at 1.
  destruct (emits_for_each (self st) (quiet (self st))
              (handle_message rt net) items (emits_handle (self st))
              (log st evs1) eq_refl) as (evs2 & H2 & P2).
  destruct (for_each (handle_message rt net) items (log st evs1))
    as [[e|[]] st2]; cbn [snd] in H2; subst st2.
  - exists (evs1 ++ evs2
            ++ [Print ("Error in listen loop: " ++ exn_msg e)])%list, 30.
    split; [|split; [|auto]].
    + destruct st as [a tr]. unfold print, sleep. run_m.
      rewrite <- !app_assoc. reflexivity.
    + repeat (apply Forall_app; split); auto. repeat constructor.
  - exists (evs1 ++ evs2)%list, 10. split; [|split; [|auto]].
    + destruct st as [a tr]. unfold sleep. run_m.
      rewrite <- !app_assoc. reflexivity.
    + apply Forall_app. auto.
Qed.

(** The loop, entered with [running] set: every cycle is run; each ends
    with its one sleep. *)
Lemma listen_loop_shape (cycles : nat) (st : state) :
  running (self st) = true ->
  exists evs,
    listen_loop rt net cycles st = (ok tt, log st evs) /\
    Forall (allowed (self st)) evs /\
    List.length (sleeps evs) = cycles /\
    Forall (fun n => n = 10 \/ n = 30) (sleeps evs).
Proof.
  revert st. induction cycles as [|n IH]; intros st Hrun; cbn [listen_loop].
  - exists []. unfold ret. rewrite log_nil. repeat split; constructor.
  - unfold bind at 1, get_self. cbv beta iota delta [ok]. rewrite Hrun.
    destruct (listen_cycle_shape st) as (evs1 & s & H1 & P1 & Hs).
    destruct (IH (log st (evs1 ++ [Sleep s])) Hrun) as (evs2 & H2 & P2 & N2 & S2).
    exists ((evs1 ++ [Sleep s]) ++ evs2)%list.
    unfold bind. rewrite H1. cbv beta iota delta [ok]. rewrite H2, log_log.
    split; [reflexivity|].
    rewrite !sleeps_app, (quiet_sleeps _ _ P1). cbn [sleeps app].
    split; [|split].
    + repeat (apply Forall_app; split); auto.
      * apply quiet_allowed, P1.
      * repeat constructor.
    + cbn. rewrite N2. reflexivity.
    + constructor; assumption.
Qed.

End Emissions.

(** * The loop as a whole *)

Section Loop.

Variable rt : runtime.
Variable net : network.

Lemma listen_for_requests_shape (cycles : nat) (st : state) :
  exists st',
    listen_for_requests rt net cycles st = (ok tt, st') /\
    self st' = with_running true (self st) /\
    List.length (sleeps (emitted (listen_for_requests rt net cycles) st))
    = cycles /\
    Forall (fun n => n = 10 \/ n = 30)
      (sleeps (emitted (listen_for_requests rt net cycles) st)).
Proof.
  rewrite listen_for_requests_run.
  destruct (listen_loop_shape rt net cycles
              {| self := with_running true (self st);
                 trace := trace st ++ [listening_log (self st)] |} eq_refl)
    as (evs & Hl & _ & Hn & Hs).
  eexists. split; [exact Hl|]. split; [reflexivity|].
  assert (He : emitted (listen_for_requests rt net cycles) st
               = (listening_log (self st) :: evs)).
  { apply emitted_trace. rewrite listen_for_requests_run, Hl.
    cbn [snd log self trace]. rewrite <- app_assoc. reflexivity. }
  rewrite He. unfold listening_log. cbn [sleeps]. auto.
Qed.

(** X5. [listen_for_requests] sets [running], whatever it was, and then
    nothing stops the loop from inside: observed for [cycles] cycles, it
    completes each of them without raising and sleeps exactly once per
    cycle, for 10 or for 30 seconds; it changes nothing of the agent but
    [running]. *)
Theorem loop_runs_every_cycle (cycles : nat) (st : state) :
  exists st',
    listen_for_requests rt net cycles st = (ok tt, st') /\
    self st' = with_running true (self st) /\
    List.length (sleeps (emitted (listen_for_requests rt net cycles) st))
    = cycles /\
    Forall (fun n => n = 10 \/ n = 30)
      (sleeps (emitted (listen_for_requests rt net cycles) st)).
Proof. exact (listen_for_requests_shape cycles st). Qed.

(** X6. [stop] clears [running] and prints one line.  A loop that finds
    [running] cleared does nothing; but [listen_for_requests] sets the
    flag again before it loops, so a [stop] issued before it does not
    prevent any cycle. *)
Theorem stop_is_seen_by_the_loop_only (cycles : nat) (st : state) :
  let stopped :=
    {| self := with_running false (self st);
       trace := trace st ++ [Print (agent_name (self st) ++ " stopped")] |} in
  stop st = (ok tt, stopped) /\
  listen_loop rt net cycles stopped = (ok tt, stopped) /\
  List.length
    (sleeps (emitted (listen_for_requests rt net cycles) stopped)) = cycles.
Proof.
  cbv zeta. split; [|split].
  - destruct st as [a tr]. reflexivity.
  - destruct cycles; reflexivity.
  - destruct (listen_for_requests_shape cycles
                {| self := with_running false (self st);
                   trace := trace st
                            ++ [Print (agent_name (self st) ++ " stopped")] |})
      as (st' & _ & _ & Hn & _).
    exact Hn.
Qed.

End Loop.

Section Discipline.

Variable rt : runtime.
Variable net : network.





End Discipline.

(** * More on the message channel *)

Section MoreChannel.

Variable rt : runtime.
Variable net : network.

(** X8. A poll answered 200 by a registered agent: when the body is a
    JSON object the result is its [messages] entry, the empty list when
    it has none; when the body is anything else (not JSON, or JSON that
    is not an object) the result is the empty list.  One request is made
    either way. *)
Theorem poll_returns_the_messages_entry (st : state) (resp : response) :
  truthy (mesh_agent_id (self st)) = true ->
  net (trace st) (poll_request rt (self st)) = ok resp ->
  status_code resp = 200 ->
  (forall data,
     body_json resp = ok (PyDict data) ->
     check_mesh_messages rt net st
     = (ok (dict_get data "messages" (PyList [])),
        log st [Http (poll_request rt (self st))])) /\
  ((forall data, body_json resp <> ok (PyDict data)) ->
   check_mesh_messages rt net st
   = (ok (PyList []), log st [Http (poll_request rt (self st))])).
Proof.
  intros Hid Hn Hc.
  rewrite (check_mesh_messages_registered rt net st Hid).
  unfold ok in *. rewrite Hn, Hc. cbn [Z.eqb Pos.eqb]. split.
  - intros data ->. reflexivity.
  - intros Hno. destruct (body_json resp) as [e|data]; [reflexivity|].
    destruct data; try reflexivity. elim (Hno d). reflexivity.
Qed.

(** X9. [send_response] is best effort once the content of the original
    message decodes: it makes one request, addressed to the sender of the
    message, and returns normally whatever the network does.  It does not
    look at the status of the answer: any answer, a refusal included, is
    logged as sent; only an exception is logged as a failure. *)
Theorem send_response_is_best_effort (message original_request response : pyval)
    (st : state) :
  decode rt message = ok original_request ->
  let s := send_request rt (self st) original_request response
             (sender_of message) in
  exists line,
    send_response rt net message response st
    = (ok tt, log st [Http s; Print line]) /\
    recipient_of s = sender_of message /\
    (forall resp, net (trace st) s = ok resp ->
       line = "Sent response to " ++ str rt (sender_of message)) /\
    (forall e, net (trace st) s = inl e ->
       line = "Failed to send response: " ++ exn_msg e).
Proof.
  intros Hd s.
  rewrite (send_response_run rt net _ _ response st Hd). fold s.
  unfold send_log.
  destruct (net (trace st) s) as [e|resp]; eexists;
    (split; [reflexivity|]); (split; [reflexivity|]); split;
    intros x Hx; try discriminate; try reflexivity.
  injection Hx as <-. reflexivity.
Qed.

(** X10. What an agent sends is not answered when it comes back as a
    message: provided the runtime reads back the JSON it writes, the
    payload of a response (type [inference_response]) and the payload of
    the announcement (type [service_announcement]), polled as messages,
    are skipped without any effect.  Two agents do not answer each
    other's responses. *)
Theorem sent_payloads_are_not_answered (a : agent)
    (original_request response recipient : pyval) (st : state) :
  (loads rt (dumps rt (response_envelope original_request response))
   = ok (response_envelope original_request response) ->
   handle_message rt net
     (as_message (send_request rt a original_request response recipient)) st
   = (ok tt, st)) /\
  (loads rt (dumps rt (announcement a)) = ok (announcement a) ->
   handle_message rt net (as_message (broadcast_request rt a)) st
   = (ok tt, st)).
Proof.
  split; intros Hl.
  - apply (handle_other_type rt net _
             [("type", PyStr "inference_response");
              ("original_request", original_request);
              ("response", response)] st);
      [exact Hl | reflexivity].
  - eapply (handle_other_type rt net _ _ st); [exact Hl | reflexivity].
Qed.

End MoreChannel.

(** A poll answered with one message, and a poll answered with an empty
    object. *)
Lemma poll_returns_the_messages_entry_witness :
  fst (check_mesh_messages Demo.rt
         (Demo.net Demo.registration
            (Demo.batch [Demo.message "peer-a" Demo.ping]) (Demo.job "job-1"))
         Demo.registered)
  = ok (PyList [Demo.message "peer-a" Demo.ping]) /\
  fst (check_mesh_messages Demo.rt
         (Demo.net Demo.registration (Demo.reply 200 (PyDict []))
            (Demo.job "job-1"))
         Demo.registered)
  = ok (PyList []).
Proof.
  split.
  - rewrite (proj1 (poll_returns_the_messages_entry Demo.rt
                      (Demo.net Demo.registration
                         (Demo.batch [Demo.message "peer-a" Demo.ping])
                         (Demo.job "job-1"))
                      Demo.registered _ eq_refl eq_refl eq_refl)
               _ eq_refl).
    reflexivity.
  - rewrite (proj1 (poll_returns_the_messages_entry Demo.rt
                      (Demo.net Demo.registration (Demo.reply 200 (PyDict []))
                         (Demo.job "job-1"))
                      Demo.registered _ eq_refl eq_refl eq_refl)
               _ eq_refl).
    reflexivity.
Defined.

(** The mesh refuses the response with status 500: it is logged as
    sent. *)
Lemma send_response_is_best_effort_witness :
  exists s,
    send_response Demo.rt (fun _ _ => Demo.reply 500 PyNone)
      (Demo.message "peer-b" Demo.image_request) Peers.queued_response
      Demo.registered
    = (ok tt, log Demo.registered [Http s; Print "Sent response to peer-b"]) /\
    recipient_of s = PyStr "peer-b".
Proof.
  destruct (send_response_is_best_effort Demo.rt
              (fun _ _ => Demo.reply 500 PyNone)
              (Demo.message "peer-b" Demo.image_request)
              Demo.image_request Peers.queued_response Demo.registered
              eq_refl) as (line & Hs & Hr & Hok & _).
  eexists. split.
  - rewrite Hs. rewrite (Hok _ eq_refl). reflexivity.
  - reflexivity.
Defined.

(** The response to [Demo.image_request] and the announcement of the
    default agent, polled by the registered agent. *)
Lemma sent_payloads_are_not_answered_witness :
  handle_message Peers.rt
    (Demo.net Demo.registration (Demo.batch []) (Demo.job "job-1"))
    (as_message
       (send_request Peers.rt (init None) Demo.image_request
          Peers.queued_response (PyStr "peer-b")))
    Demo.registered
  = (ok tt, Demo.registered) /\
  handle_message Peers.rt
    (Demo.net Demo.registration (Demo.batch []) (Demo.job "job-1"))
    (as_message (broadcast_request Peers.rt (init None)))
    Demo.registered
  = (ok tt, Demo.registered).
Proof.
  split.
  - apply (proj1 (sent_payloads_are_not_answered Peers.rt
                    (Demo.net Demo.registration (Demo.batch [])
                       (Demo.job "job-1"))
                    (init None) Demo.image_request Peers.queued_response
                    (PyStr "peer-b") Demo.registered)).
    vm_compute. reflexivity.
  - apply (proj2 (sent_payloads_are_not_answered Peers.rt
                    (Demo.net Demo.registration (Demo.batch [])
                       (Demo.job "job-1"))
                    (init None) Demo.image_request Peers.queued_response
                    (PyStr "peer-b") Demo.registered)).
    vm_compute. reflexivity.
Defined.

(** * More on processing *)

Section MoreProcessing.

Variable rt : runtime.
Variable net : network.

Lemma dispatch_invariant (request_type prompt options r : pyval)
    (st st' : state) :
  dispatch rt net request_type prompt options st = (ok r, st') ->
  result_invariant r.
Proof.
  unfold dispatch.
  destruct (eq_str request_type "image_generation").
  { rewrite generate_image_run.
    destruct (generate_image_workflow prompt options); intros [= <- _].
    - apply error_result_invariant.
    - apply queued_result_invariant. }
  destruct (eq_str request_type "video_generation").
  { rewrite generate_video_run.
    destruct (generate_video_workflow prompt options); intros [= <- _].
    - apply error_result_invariant.
    - apply queued_result_invariant. }
  destruct (eq_str request_type "distributed_inference").
  { rewrite queue_distributed_workflow_run.
    destruct (distributed_payload prompt options); intros [= <- _].
    - apply error_result_invariant.
    - apply distributed_result_invariant. }
  intros [= <- _]. apply error_result_invariant.
Qed.

Lemma result_invariant_not_none (r : pyval) :
  result_invariant r -> r <> PyNone.
Proof. intros (s & Hs & _) ->. discriminate. Qed.

(** X11. [process_inference_request] never raises.  It returns [None]
    exactly when the content decodes to a dict whose type is not
    [inference_request]; in every other case (a request of any kind,
    content that does not decode, content that is not a dict) it returns
    a non-empty dict that is a well-formed result: a queued result with
    its job handle, or an error with its detail. *)
Theorem process_returns_none_or_a_result (message : pyval) (st : state) :
  exists r st',
    process_inference_request rt net message st = (ok r, st') /\
    (r = PyNone <->
     exists body,
       decode rt message = ok (PyDict body) /\
       eq_str (dict_get body "type" PyNone) "inference_request" = false) /\
    (r <> PyNone -> truthy r = true /\ result_invariant r).
Proof.
  destruct (decode rt message) as [e|content] eqn:Hd.
  { rewrite (process_undecodable rt net _ _ st Hd).
    do 2 eexists. split; [reflexivity|]. split.
    - split; [discriminate|]. intros (body & [=] & _).
    - intros _. split; [reflexivity | apply error_result_invariant]. }
  assert (Hother : (forall body, content <> PyDict body) ->
    exists r st',
      process_inference_request rt net message st = (ok r, st') /\
      (r = PyNone <->
       exists body,
         ok content = ok (PyDict body) /\
         eq_str (dict_get body "type" PyNone) "inference_request" = false) /\
      (r <> PyNone -> truthy r = true /\ result_invariant r)).
  { intros Hc. rewrite (process_not_a_dict rt net _ _ st Hd Hc).
    do 2 eexists. split; [reflexivity|]. split.
    - split; [discriminate|]. intros (body & [= ->] & _).
      elim (Hc body). reflexivity.
    - intros _. split; [reflexivity | apply error_result_invariant]. }
  destruct content as [| | | | | |body]; try (apply Hother; discriminate).
  clear Hother.
  destruct (eq_str (dict_get body "type" PyNone) "inference_request") eqn:Ht.
  - assert (Hq : is_request rt message body) by (split; assumption).
    rewrite (process_request rt net _ _ st Hq).
    match goal with
    | |- context [dispatch rt net ?k ?p ?o ?s] =>
        destruct (dispatch_returns rt net k p o s) as (r & st' & Hr)
    end.
    exists r, st'. split; [exact Hr|].
    pose proof (dispatch_invariant _ _ _ _ _ _ Hr) as Hi.
    pose proof (dispatch_truthy rt net _ _ _ _ _ _ Hr) as Hy.
    split; [|auto]. split.
    + intros ->. elim (result_invariant_not_none _ Hi). reflexivity.
    + intros (body' & [= <-] & Hf). rewrite Hf in Ht. discriminate.
  - rewrite (process_other_type rt net _ _ st Hd Ht).
    do 2 eexists. split; [reflexivity|]. split.
    + split; [eauto|reflexivity].
    + intros Hn. elim Hn. reflexivity.
Qed.

Lemma dispatch_unusable (request_type prompt options v : pyval)
    (st : state) :
  unusable request_type prompt options = Some v ->
  dispatch rt net request_type prompt options st
  = (ok (error_result (exn_msg (AttributeError v "get"))), st).
Proof.
  unfold unusable, dispatch.
  destruct (eq_str request_type "image_generation"); cbn [orb].
  { rewrite generate_image_run.
    destruct prompt; destruct options; intros [= <-]; reflexivity. }
  destruct (eq_str request_type "video_generation").
  { rewrite generate_video_run.
    destruct prompt; destruct options; intros [= <-]; reflexivity. }
  destruct (eq_str request_type "distributed_inference"); [|discriminate].
  rewrite queue_distributed_workflow_run.
  destruct options; intros [= <-]; reflexivity.
Qed.

(** X12. A request whose builder cannot use its arguments (an image or
    video request whose prompt is missing or is not a dict, any request
    whose options are not a dict) is not submitted to the backend: the
    result is the error raised by the failed [get], naming the type of
    the value, and that error is sent to the sender; the response is the
    only request made. *)
Theorem unusable_request_is_reported (message : pyval)
    (body : list (string * pyval)) (v : pyval) (st : state) :
  is_request rt message body ->
  unusable (dict_get body "request_type" PyNone)
    (dict_get body "prompt" PyNone)
    (dict_get body "options" (PyDict [])) = Some v ->
  let r := error_result ("'" ++ type_name v
                         ++ "' object has no attribute 'get'") in
  fst (process_inference_request rt net message st) = ok r /\
  fst (handle_message rt net message st) = ok tt /\
  http_requests (emitted (handle_message rt net message) st)
  = [send_request rt (self st) (PyDict body) r (sender_of message)].
Proof.
  intros Hq Hu r.
  assert (Hp : process_inference_request rt net message st
               = (ok r, log st [received_log rt
                                  (dict_get body "request_type" PyNone)
                                  (sender_of message)])).
  { rewrite (process_request rt net _ _ st Hq).
    apply (dispatch_unusable _ _ _ _ _ Hu). }
  pose proof (handle_request rt net _ _ _ _ _ Hq Hp) as Hh. cbv zeta in Hh.
  rewrite Hp, Hh. split; [reflexivity|]. split; [reflexivity|].
  erewrite emitted_log; [|rewrite Hh; cbn [snd]; apply log_log].
  unfold received_log, send_log. cbn [app http_requests].
  destruct (net _ _); reflexivity.
Qed.

End MoreProcessing.

(** An image request whose prompt is a text. *)
Lemma unusable_request_is_reported_witness :
  fst (process_inference_request Peers.rt
         (Demo.net Demo.registration (Demo.batch []) (Demo.job "job-1"))
         (Demo.message "peer-a" Peers.text_prompt_request) Demo.registered)
  = ok (error_result "'str' object has no attribute 'get'").
Proof.
  apply (unusable_request_is_reported Peers.rt
           (Demo.net Demo.registration (Demo.batch []) (Demo.job "job-1"))
           (Demo.message "peer-a" Peers.text_prompt_request)
           [("type", PyStr "inference_request");
            ("request_type", PyStr "image_generation");
            ("prompt", PyStr "a cat")]
           (PyStr "a cat") Demo.registered).
  - split; vm_compute; reflexivity.
  - reflexivity.
Defined.

(** * More on batches *)

Section MoreBatches.

Variable rt : runtime.
Variable net : network.

Lemma recipients_of_send (a : agent) (tr : list event)
    (original_request response recipient : pyval) :
  let s := send_request rt a original_request response recipient in
  map recipient_of (responses_sent [Http s; send_log rt net tr s recipient])
  = [recipient].
Proof.
  cbv zeta. rewrite (responses_sent_send rt net). reflexivity.
Qed.

Lemma handle_decodable_recipients (message : pyval) (st : state) :
  decodes rt message ->
  exists evs,
    handle_message rt net message st = (ok tt, log st evs) /\
    map recipient_of (responses_sent evs)
    = if answered rt message then [sender_of message] else [].
Proof.
  intros [content Hd]. unfold answered. rewrite Hd.
  assert (Hother :
    (forall body, content <> PyDict body) ->
    exists evs,
      handle_message rt net message st = (ok tt, log st evs) /\
      map recipient_of (responses_sent evs) = [sender_of message]).
  { intros Hc. unfold handle_message, bind.
    rewrite (process_not_a_dict rt net _ _ st Hd Hc).
    cbv beta iota delta [ok error_result truthy].
    rewrite (send_response_run rt net _ _ _ st Hd).
    eexists. split; [reflexivity|]. apply recipients_of_send. }
  destruct content as [| | | | |l|body];
    try (destruct Hother as (evs & He & Hn); [discriminate|];
         exists evs; split; [exact He | exact Hn]).
  cbv beta iota delta [ok].
  destruct (eq_str (dict_get body "type" PyNone) "inference_request") eqn:Ht.
  - assert (Hq : is_request rt message body) by (split; assumption).
    destruct (dispatch_run rt net
                (dict_get body "request_type" PyNone)
                (dict_get body "prompt" PyNone)
                (dict_get body "options" (PyDict []))
                (log st [received_log rt (dict_get body "request_type" PyNone)
                           (sender_of message)]))
      as (r & evs & Hr & _ & Hs).
    rewrite <- (process_request rt net _ _ st Hq) in Hr.
    rewrite (handle_request rt net _ _ _ _ _ Hq Hr).
    rewrite !log_log. eexists. split; [reflexivity|].
    rewrite !responses_sent_app, Hs, !map_app, recipients_of_send.
    reflexivity.
  - rewrite (handle_other_type rt net _ _ st Hd Ht).
    exists []. rewrite log_nil. split; reflexivity.
Qed.

Lemma for_each_decodable_recipients (items : list pyval) (st : state) :
  Forall (decodes rt) items ->
  exists evs,
    for_each (handle_message rt net) items st = (ok tt, log st evs) /\
    map recipient_of (responses_sent evs)
    = map sender_of (filter (answered rt) items).
Proof.
  intros Hall. revert st.
  induction Hall as [|message items Hm _ IH]; intros st; cbn [for_each].
  - exists []. rewrite log_nil. split; reflexivity.
  - destruct (handle_decodable_recipients message st Hm) as (evs1 & H1 & N1).
    destruct (IH (log st evs1)) as (evs2 & H2 & N2).
    exists (evs1 ++ evs2)%list. unfold bind. rewrite H1, H2, log_log.
    split; [reflexivity|].
    rewrite responses_sent_app, map_app, N1, N2. cbn [filter].
    destruct (answered rt message); reflexivity.
Qed.

(** X13. A polled batch all of whose contents decode is handled to its
    end, whatever the requests raise and whatever the network answers:
    the cycle ends with the regular sleep of 10 seconds, and the
    responses it sends go, in the order of the batch, to the senders of
    the messages that are requests or whose content is not a dict;
    dicts of another type get none. *)
Theorem batch_is_answered_in_order (items : list pyval) (st st1 : state) :
  check_mesh_messages rt net st = (ok (PyList items), st1) ->
  Forall (decodes rt) items ->
  exists evs,
    listen_cycle rt net st = (ok tt, log st1 (evs ++ [Sleep 10])) /\
    map recipient_of (responses_sent evs)
    = map sender_of (filter (answered rt) items).
Proof.
  intros Hpoll Hall.
  destruct (for_each_decodable_recipients items st1 Hall) as (evs & He & Hn).
  exists evs. split; [|exact Hn].
  unfold listen_cycle, try_except, bind at 1. rewrite Hpoll.
  unfold bind at 1, lift, py_iter, ok. unfold bind at 1.
  unfold ok in He. rewrite He.
  unfold sleep, emit, log. cbn [self trace]. rewrite app_assoc. reflexivity.
Qed.

(** X14. When the [messages] entry of the poll's answer is not iterable
    ([null], a boolean, a number), the cycle handles nothing: it logs the
    error of the loop and backs off for 30 seconds. *)
Theorem messages_that_are_not_iterable (v : pyval) (st st1 : state) :
  check_mesh_messages rt net st = (ok v, st1) ->
  match v with
  | PyNone | PyBool _ | PyInt _ | PyFloat _ => True
  | _ => False
  end ->
  listen_cycle rt net st
  = (ok tt,
     log st1 [Print ("Error in listen loop: '" ++ type_name v
                     ++ "' object is not iterable");
              Sleep 30]).
Proof.
  intros Hpoll Hv.
  unfold listen_cycle, try_except, bind at 1. rewrite Hpoll.
  unfold bind at 1, lift.
  destruct st1 as [a tr].
  destruct v; try elim Hv; unfold print, sleep, py_iter; run_m;
    rewrite <- app_assoc; reflexivity.
Qed.

End MoreBatches.

(** A batch of an image request, a ping and a request of unknown kind:
    the first and the third are answered, in that order. *)
Lemma batch_is_answered_in_order_witness :
  map recipient_of
    (responses_sent
       (emitted
          (listen_cycle Demo.rt
             (Demo.net Demo.registration
                (Demo.batch [Demo.message "peer-b" Demo.image_request;
                             Demo.message "peer-p" Demo.ping;
                             Demo.message "peer-q" Demo.audio_request])
                (Demo.job "job-1")))
          Demo.registered))
  = [PyStr "peer-b"; PyStr "peer-q"].
Proof.
  destruct (batch_is_answered_in_order Demo.rt
              (Demo.net Demo.registration
                 (Demo.batch [Demo.message "peer-b" Demo.image_request;
                              Demo.message "peer-p" Demo.ping;
                              Demo.message "peer-q" Demo.audio_request])
                 (Demo.job "job-1"))
              [Demo.message "peer-b" Demo.image_request;
               Demo.message "peer-p" Demo.ping;
               Demo.message "peer-q" Demo.audio_request]
              Demo.registered
              (log Demo.registered
                 [Http (poll_request Demo.rt (self Demo.registered))])
              eq_refl) as (evs & Hc & Hr).
  - repeat constructor; eexists; vm_compute; reflexivity.
  - erewrite emitted_log; [|rewrite Hc; cbn [snd]; apply log_log].
    rewrite !responses_sent_app, !map_app, Hr. vm_compute. reflexivity.
Defined.

(** The mesh answers the poll with [{"messages": null}]. *)
Lemma messages_that_are_not_iterable_witness :
  listen_cycle Demo.rt
    (Demo.net Demo.registration
       (Demo.reply 200 (PyDict [("messages", PyNone)])) (Demo.job "job-1"))
    Demo.registered
  = (ok tt,
     log Demo.registered
       [Http (poll_request Demo.rt (self Demo.registered));
        Print "Error in listen loop: 'NoneType' object is not iterable";
        Sleep 30]).
Proof.
  rewrite (messages_that_are_not_iterable Demo.rt
             (Demo.net Demo.registration
                (Demo.reply 200 (PyDict [("messages", PyNone)]))
                (Demo.job "job-1"))
             PyNone Demo.registered
             (log Demo.registered
                [Http (poll_request Demo.rt (self Demo.registered))])
             eq_refl I).
  reflexivity.
Defined.

(** * More on the job graphs *)

Lemma scalar_no_target (v : pyval) : scalar v = true -> target_of v = [].
Proof. destruct v; cbn; try reflexivity; discriminate. Qed.

(** Rewrites the targets of the values taken from prompt and options. *)
Ltac scalar_targets :=
  repeat match goal with
         | |- context [target_of (dict_get ?d ?k ?v)] =>
             rewrite (scalar_no_target (dict_get d k v))
               by (apply scalar_dict_get; auto)
         end.

(** X15. With scalar prompt texts and options, the graphs of both
    builders are closed: every link points to a node of the graph.  The
    video graph is moreover acyclic, each node taking its inputs from
    nodes listed before it. *)
Theorem job_graphs_are_closed (p o : list (string * pyval)) :
  scalars p = true -> scalars o = true ->
  exists image video,
    generate_image_workflow (PyDict p) (PyDict o) = ok image /\
    generate_video_workflow (PyDict p) (PyDict o) = ok video /\
    closed image = true /\
    closed video = true /\
    acyclic video = true.
Proof.
  intros Hp Ho. do 2 eexists.
  split; [reflexivity|]. split; [reflexivity|].
  split; [|split].
  - cbn [closed forallb targets inputs_of flat_map snd fst map assoc
         String.eqb Ascii.eqb Bool.eqb app].
    scalar_targets. reflexivity.
  - cbn [closed forallb targets inputs_of flat_map snd fst map assoc
         String.eqb Ascii.eqb Bool.eqb app].
    scalar_targets. reflexivity.
  - cbn [acyclic ordered forallb targets inputs_of flat_map snd fst map assoc
         String.eqb Ascii.eqb Bool.eqb app].
    scalar_targets. reflexivity.
Qed.

(** X16. Each builder reads only its own options: two option mappings
    that agree on [seed], [steps], [cfg], [sampler], [model], [width],
    [height] and [filename] give the same image graph, and two that agree
    on [width], [height], [frames], [seed] and [filename] give the same
    video graph; in particular [steps], [cfg], [sampler] and [model] have
    no effect on a video. *)
Theorem builders_read_only_their_options (prompt : pyval)
    (o o' : list (string * pyval)) :
  (entries image_options o = entries image_options o' ->
   generate_image_workflow prompt (PyDict o)
   = generate_image_workflow prompt (PyDict o')) /\
  (entries video_options o = entries video_options o' ->
   generate_video_workflow prompt (PyDict o)
   = generate_video_workflow prompt (PyDict o')).
Proof.
  split; intros H; injection H as; 
    unfold generate_image_workflow, generate_video_workflow, py_get, dict_get;
    repeat match goal with
           | H : assoc _ o = assoc _ o' |- _ => rewrite H; clear H
           end;
    reflexivity.
Qed.

(** A prompt with a text, options with a width. *)
Lemma job_graphs_are_closed_witness :
  exists image video,
    generate_image_workflow (PyDict [("positive", PyStr "a cat")])
      (PyDict [("width", PyInt 512)]) = ok image /\
    generate_video_workflow (PyDict [("positive", PyStr "a cat")])
      (PyDict [("width", PyInt 512)]) = ok video /\
    closed image = true /\ closed video = true /\ acyclic video = true.
Proof.
  exact (job_graphs_are_closed [("positive", PyStr "a cat")]
           [("width", PyInt 512)] eq_refl eq_refl).
Defined.

(** Options that differ in [steps] only: the video graph is the same. *)
Lemma builders_read_only_their_options_witness :
  generate_video_workflow (PyDict [("prompt", PyStr "a cat walking")])
    (PyDict [("steps", PyInt 50); ("seed", PyInt 7)])
  = generate_video_workflow (PyDict [("prompt", PyStr "a cat walking")])
      (PyDict [("seed", PyInt 7)]).
Proof.
  apply (proj2 (builders_read_only_their_options
                  (PyDict [("prompt", PyStr "a cat walking")])
                  [("steps", PyInt 50); ("seed", PyInt 7)]
                  [("seed", PyInt 7)])).
  reflexivity.
Defined.

Section VideoRequests.

Variable rt : runtime.
Variable net : network.

(** X17. A video request with a dict prompt and an options mapping is
    submitted to [/api/prompt] of the backend under the client id
    [mesh-agent-video]; the graph takes width, height, length, seed and
    file name from the options (1280, 704, 125, 77777 and [mesh_video]
    when they are absent) and always samples with 20 steps, cfg 5 and
    [uni_pc]; when the answer has status 200 and a JSON object as body,
    the result is [queued] with the [prompt_id] of that body. *)
Theorem video_request_is_submitted (message : pyval)
    (body p o : list (string * pyval)) (st : state) :
  is_request rt message body ->
  dict_get body "request_type" PyNone = PyStr "video_generation" ->
  dict_get body "prompt" PyNone = PyDict p ->
  dict_get body "options" (PyDict []) = PyDict o ->
  exists graph,
    generate_video_workflow (PyDict p) (PyDict o) = ok graph /\
    node_input graph "pos" "text" = Some (dict_get p "prompt" (PyStr "")) /\
    node_input graph "i2v" "width" = Some (dict_get o "width" (PyInt 1280)) /\
    node_input graph "i2v" "height" = Some (dict_get o "height" (PyInt 704)) /\
    node_input graph "i2v" "length" = Some (dict_get o "frames" (PyInt 125)) /\
    node_input graph "samp" "seed" = Some (dict_get o "seed" (PyInt 77777)) /\
    node_input graph "save" "filename_prefix"
      = Some (dict_get o "filename" (PyStr "mesh_video")) /\
    node_input graph "samp" "steps" = Some (PyInt 20) /\
    node_input graph "samp" "cfg" = Some (PyInt 5) /\
    node_input graph "samp" "sampler_name" = Some (PyStr "uni_pc") /\
    let st1 := log st [received_log rt (PyStr "video_generation")
                         (sender_of message)] in
    let r := prompt_request (self st) graph "mesh-agent-video" in
    snd (process_inference_request rt net message st) = log st1 [Http r] /\
    (forall resp data,
       net (trace st1) r = ok resp ->
       status_code resp = 200 ->
       body_json resp = ok (PyDict data) ->
       fst (process_inference_request rt net message st)
       = ok (PyDict [("status", PyStr "queued");
                     ("prompt_id", dict_get data "prompt_id" PyNone)])).
Proof.
  intros Hq Hk Hp Ho.
  eexists. split; [reflexivity|].
  do 9 (split; [reflexivity|]).
  cbv zeta.
  rewrite (process_request rt net _ _ st Hq), Hk, Hp, Ho.
  unfold dispatch. cbn [eq_str String.eqb Ascii.eqb Bool.eqb].
  rewrite generate_video_run.
  cbv beta iota zeta delta [generate_video_workflow py_get ok].
  cbn [snd fst].
  split; [reflexivity|].
  intros resp data Hn Hcode Hb.
  unfold ok in *. cbn [log self trace app] in Hn |- *.
  unfold queued_result. rewrite Hn, Hcode, Hb. reflexivity.
Qed.

End VideoRequests.

(** The video request of the examples, 49 frames, accepted as
    [job-2]. *)
Lemma video_request_is_submitted_witness :
  fst (process_inference_request Demo.rt
         (Demo.net Demo.registration (Demo.batch []) (Demo.job "job-2"))
         (Demo.message "peer-v" Demo.video_request) Demo.registered)
  = ok (PyDict [("status", PyStr "queued"); ("prompt_id", PyStr "job-2")]).
Proof.
  destruct (video_request_is_submitted Demo.rt
              (Demo.net Demo.registration (Demo.batch []) (Demo.job "job-2"))
              (Demo.message "peer-v" Demo.video_request)
              [("type", PyStr "inference_request");
               ("request_type", PyStr "video_generation");
               ("prompt", PyDict [("prompt", PyStr "a cat walking")]);
               ("options", PyDict [("frames", PyInt 49)])]
              [("prompt", PyStr "a cat walking")]
              [("frames", PyInt 49)]
              Demo.registered
              (conj eq_refl eq_refl) eq_refl eq_refl eq_refl)
    as (graph & _ & _ & _ & _ & _ & _ & _ & _ & _ & _ & H).
  cbv zeta in H. destruct H as (_ & H).
  exact (H {| status_code := 200;
              body_json := ok (PyDict [("prompt_id", PyStr "job-2")]) |}
           [("prompt_id", PyStr "job-2")] eq_refl eq_refl eq_refl).
Defined.
